(** * Web STL Visualizer: transformation store, unit conversion, rotation
    normalisation, model registry and scene framing.

    A shallow embedding of [src/App.tsx] and [src/FileList.tsx].  JavaScript
    numbers are IEEE-754 binary64 values, modelled by Rocq's primitive
    floats; objects compared with [===] carry their heap address; the
    [Record<string, ModelTransformations>] store is a [gmap] keyed by file
    name; React state is threaded explicitly through the event handlers. *)

From Stdlib Require Import ZArith Floats Uint63 List Ascii String Lia.
From stdpp Require Import base option list gmap strings.
Import ListNotations.

Local Open Scope string_scope.
Local Open Scope list_scope.
Local Open Scope nat_scope.

(* ================================================================== *)
(** ** JavaScript numbers *)

Module JS.

(** A JS [number]. *)
Definition number : Type := float.
Bind Scope float_scope with number.

(** [Math.PI], the double nearest to π. *)
Definition PI : number := 0x1.921fb54442d18p+1%float.

(** The [%] operator of ECMAScript on numbers: the remainder of the
    truncating division, carrying the sign of the dividend; it is always
    exactly representable. *)
Definition rem (n d : number) : number :=
  if is_nan n || is_nan d then nan
  else if is_infinity n then nan
  else if PrimFloat.is_zero d then nan
  else if is_infinity d then n
  else match Prim2SF n, Prim2SF d with
       | S754_finite sn mn en, S754_finite _ md ed =>
           let e := Z.min en ed in
           let N := (Z.pos mn * 2 ^ (en - e))%Z in
           let D := (Z.pos md * 2 ^ (ed - e))%Z in
           match (N mod D)%Z with
           | Z.pos r => SF2Prim (S754_finite sn r e)
           | _ => SF2Prim (S754_zero sn)
           end
       | _, _ => n
       end.

Arguments rem (n d)%_float_scope.

(** Truthiness of a number: [0], [-0] and [NaN] are falsy. *)
Definition truthy (x : number) : bool :=
  negb (PrimFloat.is_zero x || is_nan x).

(** [v || 0] where [v] is a possibly missing numeric property. *)
Definition orZero (v : option number) : number :=
  match v with
  | Some x => if truthy x then x else 0%float
  | None => 0%float
  end.

(** An integer of magnitude below 2^53 as a number. *)
Definition ofZ (z : Z) : number :=
  match z with
  | Z0 => 0%float
  | Z.pos _ => of_uint63 (Uint63.of_Z z)
  | Z.neg _ => PrimFloat.opp (of_uint63 (Uint63.of_Z (- z)%Z))
  end.

(** Bitwise (Leibniz) membership test, used to enumerate values. *)
Definition mem (x : number) (l : list number) : bool :=
  existsb (Leibniz.eqb x) l.

End JS.

Abbreviation number := JS.number.
Bind Scope float_scope with JS.number.

(* ================================================================== *)
(** ** Types of [App.tsx] *)

Inductive MeasurementUnit : Set := mm | cm | inches.

Inductive TransformationAxis : Set :=
| positionX | positionY | positionZ
| rotationX | rotationY | rotationZ.

(** [ModelTransformations]: six optional numeric properties. *)
Record ModelTransformations : Type := mkTransformations {
  get_positionX : option number;
  get_positionY : option number;
  get_positionZ : option number;
  get_rotationX : option number;
  get_rotationY : option number;
  get_rotationZ : option number
}.

(** The object literal [{}]. *)
Definition emptyTransformations : ModelTransformations :=
  mkTransformations None None None None None None.

(** Property read [t[axis]]. *)
Definition getAxis (t : ModelTransformations) (axis : TransformationAxis)
  : option number :=
  match axis with
  | positionX => get_positionX t
  | positionY => get_positionY t
  | positionZ => get_positionZ t
  | rotationX => get_rotationX t
  | rotationY => get_rotationY t
  | rotationZ => get_rotationZ t
  end.

(** Spread-and-override [{ ...t, [axis]: v }]. *)
Definition setAxis (t : ModelTransformations) (axis : TransformationAxis)
  (v : number) : ModelTransformations :=
  match axis with
  | positionX => mkTransformations (Some v) (get_positionY t) (get_positionZ t)
                   (get_rotationX t) (get_rotationY t) (get_rotationZ t)
  | positionY => mkTransformations (get_positionX t) (Some v) (get_positionZ t)
                   (get_rotationX t) (get_rotationY t) (get_rotationZ t)
  | positionZ => mkTransformations (get_positionX t) (get_positionY t) (Some v)
                   (get_rotationX t) (get_rotationY t) (get_rotationZ t)
  | rotationX => mkTransformations (get_positionX t) (get_positionY t)
                   (get_positionZ t) (Some v) (get_rotationY t) (get_rotationZ t)
  | rotationY => mkTransformations (get_positionX t) (get_positionY t)
                   (get_positionZ t) (get_rotationX t) (Some v) (get_rotationZ t)
  | rotationZ => mkTransformations (get_positionX t) (get_positionY t)
                   (get_positionZ t) (get_rotationX t) (get_rotationY t) (Some v)
  end.

Definition isRotationAxis (axis : TransformationAxis) : bool :=
  match axis with
  | rotationX | rotationY | rotationZ => true
  | _ => false
  end.

Definition POSITION_AXES : list TransformationAxis :=
  [positionX; positionY; positionZ].
Definition ROTATION_AXES : list TransformationAxis :=
  [rotationX; rotationY; rotationZ].

(* ================================================================== *)
(** ** Unit conversion

    The conversions are written over the arithmetic they need (decimal
    literals, product, quotient), read in the doubles the program computes
    with. *)

Class Arith (A : Type) : Type := {
  (** the decimal literal [m / 10^e] *)
  lit : Z -> nat -> A;
  mul : A -> A -> A;
  div : A -> A -> A
}.

(** Doubles: a literal is the correctly rounded quotient of two exactly
    represented integers, i.e. the double nearest to the decimal. *)
#[export] Instance Arith_number : Arith number := {
  lit m e := PrimFloat.div (JS.ofZ m) (JS.ofZ (10 ^ Z.of_nat e)%Z);
  mul := PrimFloat.mul;
  div := PrimFloat.div
}.

Section UnitConverter.
Context {A : Type} `{Arith A}.

(** [UNIT_TO_MM]: conversion factors to millimetres. *)
Definition UNIT_TO_MM (u : MeasurementUnit) : A :=
  match u with
  | mm => lit 1%Z 0%nat
  | cm => lit 10%Z 0%nat
  | inches => lit 254%Z 1%nat
  end.

(** The table cell [valueInSTLUnits * conversionFactor]. *)
Definition valueInMM (valueInSTLUnits : A) (stlUnit : MeasurementUnit) : A :=
  mul valueInSTLUnits (UNIT_TO_MM stlUnit).

(** The button argument [step / conversionFactor]. *)
Definition valueInSTLUnits (millimetres : A) (stlUnit : MeasurementUnit) : A :=
  div millimetres (UNIT_TO_MM stlUnit).
End UnitConverter.


(** [closeTo bits z x]: [z] and [x] are finite doubles of the same sign and
    [|z - x| * 2^bits <= |x|], decided exactly on the mantissas and
    exponents of the two doubles. *)
Definition closeTo (bits : Z) (z x : number) : bool :=
  match Prim2SF z, Prim2SF x with
  | S754_finite sz mz ez, S754_finite sx mx ex =>
      let c := Z.min ez ex in
      let vz := (Z.pos mz * 2 ^ (ez - c))%Z in
      let vx := (Z.pos mx * 2 ^ (ex - c))%Z in
      Bool.eqb sz sx && (2 ^ bits * Z.abs (vz - vx) <=? vx)%Z
  | _, _ => false
  end.

(* ================================================================== *)
(** ** Rotation normalisation (closures of [TransformationPanel]) *)

(** [radiansToDegrees]: degrees normalised to the range 0-360. *)
Definition radiansToDegrees (radians : number) : number :=
  let degrees := (radians * 180 / JS.PI)%float in
  JS.rem (JS.rem degrees 360 + 360)%float 360.

(** [degreesToRadians]: normalises to 0-360, then converts. *)
Definition degreesToRadians (degrees : number) : number :=
  let normalized := JS.rem (JS.rem degrees 360 + 360)%float 360 in
  (normalized * JS.PI / 180)%float.

Arguments radiansToDegrees radians%_float_scope.
Arguments degreesToRadians degrees%_float_scope.

(** The local [normalizedRadians] of [updateRotation], as a function of
    the current stored value and of the increment in degrees. *)
Definition normalizedRadians (currentRadians degreesIncrement : number)
  : number :=
  let currentDegrees := radiansToDegrees currentRadians in
  let newDegrees := (currentDegrees + degreesIncrement)%float in
  degreesToRadians newDegrees.

Arguments normalizedRadians (currentRadians degreesIncrement)%_float_scope.

(* ================================================================== *)
(** ** The transformation store *)

(** [transformations[name]?.[axis] || 0]. *)
Definition readAxis (transformations : gmap string ModelTransformations)
  (name : string) (axis : TransformationAxis) : number :=
  JS.orZero (transformations !! name ≫= fun t => getAxis t axis).

(** [updateModelTransformation]: the state updater passed to
    [setModelTransformations].  The record of [fileName] is replaced by a
    copy in which [axis] holds the old value (or 0) plus the increment. *)
Definition updateModelTransformation (fileName : string)
  (axis : TransformationAxis) (incrementValue : number)
  (previousTransformations : gmap string ModelTransformations)
  : gmap string ModelTransformations :=
  <[ fileName :=
       setAxis (default emptyTransformations (previousTransformations !! fileName))
         axis
         (readAxis previousTransformations fileName axis + incrementValue)%float ]>
    previousTransformations.

(** [updateRotation]: the arguments it hands to [onTransformationUpdate]
    for the file called [name]. *)
Definition updateRotation (transformations : gmap string ModelTransformations)
  (name : string) (axis : TransformationAxis) (degreesIncrement : number)
  : string * TransformationAxis * number :=
  let currentRadians := readAxis transformations name axis in
  (name, axis,
   (normalizedRadians currentRadians degreesIncrement - currentRadians)%float).

(** One rotation edit on a stored value: [updateRotation] followed by
    [updateModelTransformation]. *)
Definition rotateStored (currentRadians degreesIncrement : number) : number :=
  (currentRadians
   + (normalizedRadians currentRadians degreesIncrement - currentRadians))%float.

Arguments rotateStored (currentRadians degreesIncrement)%_float_scope.

(** The increments of the six rotation buttons. *)
Inductive RotationStep : Set :=
| RotMinus5 | RotMinus2 | RotMinus1 | RotPlus1 | RotPlus2 | RotPlus5.

Definition rotationDegrees (r : RotationStep) : number :=
  match r with
  | RotMinus5 => (-5)%float
  | RotMinus2 => (-2)%float
  | RotMinus1 => (-1)%float
  | RotPlus1 => 1%float
  | RotPlus2 => 2%float
  | RotPlus5 => 5%float
  end.

Definition allRotationSteps : list RotationStep :=
  [RotMinus5; RotMinus2; RotMinus1; RotPlus1; RotPlus2; RotPlus5].

(** The millimetre steps of the four position buttons. *)
Inductive PositionStep : Set :=
| PosMinus10 | PosMinus1 | PosPlus1 | PosPlus10.

Definition positionMillimetres (p : PositionStep) : number :=
  match p with
  | PosMinus10 => (-10)%float
  | PosMinus1 => (-1)%float
  | PosPlus1 => 1%float
  | PosPlus10 => 10%float
  end.

(** *** The stored rotations reachable with the buttons

    Values are enumerated by saturation from 0: the buttons only ever
    produce finitely many doubles. *)

Definition rotationSuccessors (c : number) : list number :=
  map (fun r => rotateStored (JS.orZero (Some c)) (rotationDegrees r))
    allRotationSteps.

Definition addNew (seen : list number) (x : number) : list number :=
  if JS.mem x seen then seen else seen ++ [x].

Fixpoint saturate (fuel : nat) (seen frontier : list number) : list number :=
  match fuel with
  | O => seen
  | S fuel' =>
      let seen' := fold_left addNew (flat_map rotationSuccessors frontier) seen in
      let fresh := skipn (length seen) seen' in
      match fresh with
      | [] => seen
      | _ => saturate fuel' seen' fresh
      end
  end.

Definition rotationOrbit : list number :=
  Eval vm_compute in saturate 64 [0%float] [0%float].

(* ================================================================== *)
(** ** Loaded files *)

(** The result of [URL.createObjectURL]: the browser mints a new URL at
    every call; a URL is represented by its serial number. *)
Definition BlobURL : Set := nat.

(** An [STLFile] object.  [address] is the identity of the object on the
    heap: [===] on objects compares addresses, not contents. *)
Record STLFile : Type := mkSTLFile {
  address : nat;
  name : string;
  url : BlobURL;
  visible : option bool;
  color : option string
}.

(** [a === b] on objects. *)
Definition sameObject (a b : STLFile) : bool := Nat.eqb (address a) (address b).

(** [file === selectedFile], where [selectedFile] may be [null]. *)
Definition isSelected (selectedFile : option STLFile) (file : STLFile) : bool :=
  match selectedFile with
  | Some s => sameObject file s
  | None => false
  end.

(** [file.visible !== false]. *)
Definition isVisible (file : STLFile) : bool :=
  match visible file with
  | Some false => false
  | _ => true
  end.

(** [!f.visible]: a missing flag is falsy. *)
Definition notVisible (f : STLFile) : bool :=
  negb (default false (visible f)).

Definition AVAILABLE_COLORS : list string :=
  ["#858585"; "#9a9a9a"; "#b0b0b0"; "#c5c5c5"; "#dbdbdb"; "#eeeeee"; "#ffffff"].

(** [getColorByIndex] for an integral index.  Reading an array at a
    negative index yields [undefined], here [None]. *)
Definition getColorByIndex (index : Z) : option string :=
  let i := Z.rem index (Z.of_nat (length AVAILABLE_COLORS)) in
  if (i <? 0)%Z then None else AVAILABLE_COLORS !! Z.to_nat i.

(* ================================================================== *)
(** ** The three.js objects touched by [ModelsContainer] *)

Record Vector3 : Type := vec3 { vx : number; vy : number; vz : number }.

Record Box3 : Type := box3 { bmin : Vector3; bmax : Vector3 }.

Module THREE.

(** [Vector3.add]. *)
Definition add (a b : Vector3) : Vector3 :=
  vec3 (vx a + vx b)%float (vy a + vy b)%float (vz a + vz b)%float.

(** [Vector3.length]. *)
Definition length (v : Vector3) : number :=
  PrimFloat.sqrt (vx v * vx v + vy v * vy v + vz v * vz v)%float.

(** [Box3.isEmpty]. *)
Definition isEmpty (b : Box3) : bool :=
  (vx (bmax b) <? vx (bmin b))%float || (vy (bmax b) <? vy (bmin b))%float
  || (vz (bmax b) <? vz (bmin b))%float.

(** [Box3.getCenter]. *)
Definition getCenter (b : Box3) : Vector3 :=
  if isEmpty b then vec3 0 0 0
  else vec3 ((vx (bmin b) + vx (bmax b)) * 0.5)%float
            ((vy (bmin b) + vy (bmax b)) * 0.5)%float
            ((vz (bmin b) + vz (bmax b)) * 0.5)%float.

(** [Box3.getSize]. *)
Definition getSize (b : Box3) : Vector3 :=
  if isEmpty b then vec3 0 0 0
  else vec3 (vx (bmax b) - vx (bmin b))%float
            (vy (bmax b) - vy (bmin b))%float
            (vz (bmax b) - vz (bmin b))%float.

End THREE.

(** Calls made on the scene by the camera effect, in order. *)
Inductive SceneOp : Type :=
| Box3_setFromObject
| Group_position_set (v : Vector3)
| Camera_position_copy (v : Vector3)
| Camera_lookAt (v : Vector3).

(** The refs and objects the effect reads and writes: [groupRef.current]
    (attached or [null]), the group's position, the camera, and
    [previousFileCountRef.current]. *)
Record Scene : Type := mkScene {
  groupRef : bool;
  groupPosition : Vector3;
  cameraPosition : Vector3;
  cameraLookAt : option Vector3;
  previousFileCountRef : nat
}.

(** The body of the [useEffect] of [ModelsContainer].  [boundingBox] is
    what [new THREE.Box3().setFromObject(groupRef.current)] would measure;
    it is only consulted inside the guarded branch. *)
Definition cameraEffect (boundingBox : Box3) (files : list STLFile)
  (sc : Scene) : Scene * list SceneOp :=
  let currentFileCount := length files in
  if groupRef sc && (0 <? currentFileCount)%nat
     && negb (currentFileCount =? previousFileCountRef sc)%nat
  then
    let center := THREE.getCenter boundingBox in
    let size := THREE.getSize boundingBox in
    let cameraDistance := (THREE.length size * 1.5)%float in
    let recenter := vec3 (- vx center)%float (- vy center)%float (- vz center)%float in
    let newCameraPosition := THREE.add center (vec3 0 0 cameraDistance) in
    (mkScene (groupRef sc) recenter newCameraPosition (Some center)
       currentFileCount,
     [Box3_setFromObject; Group_position_set recenter;
      Camera_position_copy newCameraPosition; Camera_lookAt center])
  else (sc, []).

(* ================================================================== *)
(** ** Application state *)

Inductive TransformMode : Set := position | rotation.

(** Local state of [TransformationPanel]. *)
Record PanelState : Set := mkPanel {
  selectedAxis : TransformationAxis;
  transformMode : TransformMode
}.

Definition initialPanel : PanelState := mkPanel positionX position.

Definition currentAxes (p : PanelState) : list TransformationAxis :=
  match transformMode p with
  | position => POSITION_AXES
  | rotation => ROTATION_AXES
  end.

(** State of [STLUploader] and of its children, together with the two
    allocation counters of the environment (next heap address, next blob
    URL) and the dependency value [files.length] seen when the camera
    effect last ran. *)
Record AppState : Type := mkApp {
  loadedFiles : list STLFile;
  selectedFile : option STLFile;
  modelTransformations : gmap string ModelTransformations;
  stlUnit : MeasurementUnit;
  panel : PanelState;
  scene : Scene;
  effectDeps : nat;
  nextAddress : nat;
  nextURL : BlobURL
}.

(** The application after its first render: nothing loaded, camera at
    [0, 0, 10], the effect has run once on an empty list. *)
Definition initialState : AppState :=
  mkApp [] None ∅ mm initialPanel
    (mkScene true (vec3 0 0 0) (vec3 0 0 10) None 0) 0 0 0.

(** *** Event handlers of [STLUploader] *)

(** [handleFileUpload] on the names of the chosen files. *)
Definition handleFileUpload (uploadedFiles : list string) (s : AppState)
  : AppState :=
  let newSTLFiles :=
    imap (fun index fileName =>
            let globalIndex := (length (loadedFiles s) + index)%nat in
            mkSTLFile (nextAddress s + index) fileName (nextURL s + index)
              (Some true) (getColorByIndex (Z.of_nat globalIndex)))
      uploadedFiles in
  mkApp (loadedFiles s ++ newSTLFiles) (selectedFile s)
    (modelTransformations s) (stlUnit s) (panel s) (scene s) (effectDeps s)
    (nextAddress s + length uploadedFiles) (nextURL s + length uploadedFiles).

(** [handleFileSelection]. *)
Definition handleFileSelection (file : STLFile) (s : AppState) : AppState :=
  mkApp (loadedFiles s)
    (if isSelected (selectedFile s) file then None else Some file)
    (modelTransformations s) (stlUnit s) (panel s) (scene s) (effectDeps s)
    (nextAddress s) (nextURL s).

(** The [map] of [toggleFileVisibility]: every element identical to [file]
    is replaced by a newly allocated copy with the flag negated. *)
Fixpoint toggleIn (file : STLFile) (next : nat) (previousFiles : list STLFile)
  : list STLFile * nat :=
  match previousFiles with
  | [] => ([], next)
  | f :: rest =>
      if sameObject f file then
        let '(rest', next') := toggleIn file (S next) rest in
        (mkSTLFile next (name f) (url f) (Some (notVisible f)) (color f) :: rest',
         next')
      else
        let '(rest', next') := toggleIn file next rest in
        (f :: rest', next')
  end.

(** [toggleFileVisibility]. *)
Definition toggleFileVisibility (file : STLFile) (s : AppState) : AppState :=
  let '(files, next) := toggleIn file (nextAddress s) (loadedFiles s) in
  mkApp files (selectedFile s) (modelTransformations s) (stlUnit s) (panel s)
    (scene s) (effectDeps s) next (nextURL s).

(** [setModelTransformations] with the updater of
    [updateModelTransformation]. *)
Definition onTransformationUpdate (fileName : string)
  (axis : TransformationAxis) (value : number) (s : AppState) : AppState :=
  mkApp (loadedFiles s) (selectedFile s)
    (updateModelTransformation fileName axis value (modelTransformations s))
    (stlUnit s) (panel s) (scene s) (effectDeps s) (nextAddress s) (nextURL s).

Definition setPanel (p : PanelState) (s : AppState) : AppState :=
  mkApp (loadedFiles s) (selectedFile s) (modelTransformations s) (stlUnit s)
    p (scene s) (effectDeps s) (nextAddress s) (nextURL s).

Definition setStlUnit (u : MeasurementUnit) (s : AppState) : AppState :=
  mkApp (loadedFiles s) (selectedFile s) (modelTransformations s) u
    (panel s) (scene s) (effectDeps s) (nextAddress s) (nextURL s).

(* ================================================================== *)
(** ** User events and rendering *)

(** What the user can do.  A row of [FileList] is addressed by its index;
    the handlers receive the object rendered in that row. *)
Inductive Event : Type :=
| FileInputChange (uploadedFiles : list string)
| FileRowClick (row : nat)
| EyeButtonClick (row : nat)
| ModeButtonClick (mode : TransformMode)
| AxisButtonClick (axis : TransformationAxis)
| PositionButtonClick (step : PositionStep)
| RotationButtonClick (step : RotationStep)
| UnitSelectChange (unit : MeasurementUnit).

Definition axisEqb (a b : TransformationAxis) : bool :=
  match a, b with
  | positionX, positionX | positionY, positionY | positionZ, positionZ
  | rotationX, rotationX | rotationY, rotationY | rotationZ, rotationZ => true
  | _, _ => false
  end.

(** The handler run by an event.  Controls that are not rendered in the
    current state (a missing row, the panel while nothing is selected, the
    buttons of the other mode) cannot be used: such events change nothing. *)
Definition handle (ev : Event) (s : AppState) : AppState :=
  match ev with
  | FileInputChange uploadedFiles => handleFileUpload uploadedFiles s
  | FileRowClick row =>
      match loadedFiles s !! row with
      | Some file => handleFileSelection file s
      | None => s
      end
  | EyeButtonClick row =>
      match loadedFiles s !! row with
      | Some file => toggleFileVisibility file s
      | None => s
      end
  | ModeButtonClick mode =>
      match selectedFile s with
      | Some _ =>
          setPanel (mkPanel (match mode with
                             | position => positionX
                             | rotation => rotationX
                             end) mode) s
      | None => s
      end
  | AxisButtonClick axis =>
      match selectedFile s with
      | Some _ =>
          if existsb (axisEqb axis) (currentAxes (panel s))
          then setPanel (mkPanel axis (transformMode (panel s))) s
          else s
      | None => s
      end
  | PositionButtonClick step =>
      match selectedFile s, transformMode (panel s) with
      | Some file, position =>
          onTransformationUpdate (name file) (selectedAxis (panel s))
            (valueInSTLUnits (positionMillimetres step) (stlUnit s)) s
      | _, _ => s
      end
  | RotationButtonClick step =>
      match selectedFile s, transformMode (panel s) with
      | Some file, rotation =>
          let '(fileName, axis, value) :=
            updateRotation (modelTransformations s) (name file)
              (selectedAxis (panel s)) (rotationDegrees step) in
          onTransformationUpdate fileName axis value s
      | _, _ => s
      end
  | UnitSelectChange unit =>
      match selectedFile s, transformMode (panel s) with
      | Some _, position => setStlUnit unit s
      | _, _ => s
      end
  end.

Section Rendering.

(** The bounding box three.js measures for the meshes in the group: the
    visible files, placed by their transformations.  The geometry comes
    from the loader, so the measurement is left abstract. *)
Variable setFromObject :
  list STLFile -> gmap string ModelTransformations -> Box3.

(** The render that follows a state change.  [TransformationPanel] is
    unmounted, and so loses its local state, while nothing is selected;
    the camera effect runs when its dependency [files.length] changed
    (its other dependency, the camera object, stays the same object). *)
Definition commit (s : AppState) : AppState * list SceneOp :=
  let p := match selectedFile s with
           | Some _ => panel s
           | None => initialPanel
           end in
  if (length (loadedFiles s) =? effectDeps s)%nat then
    (mkApp (loadedFiles s) (selectedFile s) (modelTransformations s)
       (stlUnit s) p (scene s) (effectDeps s) (nextAddress s) (nextURL s), [])
  else
    let '(sc, ops) :=
      cameraEffect
        (setFromObject (filter (fun f => isVisible f = true) (loadedFiles s))
           (modelTransformations s))
        (loadedFiles s) (scene s) in
    (mkApp (loadedFiles s) (selectedFile s) (modelTransformations s)
       (stlUnit s) p sc (length (loadedFiles s)) (nextAddress s) (nextURL s),
     ops).

(** One event: its handler, then the render. *)
Definition step (ev : Event) (s : AppState) : AppState * list SceneOp :=
  commit (handle ev s).

(** A session: the state after a sequence of events. *)
Definition run (evs : list Event) (s : AppState) : AppState :=
  fold_left (fun s ev => fst (step ev s)) evs s.

End Rendering.

(** A measurement used in examples: every scene fits the unit cube. *)
Definition unitCube : list STLFile -> gmap string ModelTransformations -> Box3 :=
  fun _ _ => box3 (vec3 0 0 0) (vec3 1 1 1).

(** *** Observations made by the views *)

(** Rows of [FileList] drawn as selected. *)
Definition selectedRows (s : AppState) : list STLFile :=
  filter (fun f => isSelected (selectedFile s) f = true) (loadedFiles s).

(** The [transformations] prop [ModelsContainer] hands to the mesh of
    [file]: [transformations[file.name] || {}]. *)
Definition meshTransformations (s : AppState) (file : STLFile)
  : ModelTransformations :=
  default emptyTransformations (modelTransformations s !! name file).

(** The models shown. *)
Definition visibleFiles (s : AppState) : list STLFile :=
  filter (fun f => isVisible f = true) (loadedFiles s).

(* ================================================================== *)
(** ** Predicates used in the statements *)

(** [0 <= v < 2 * Math.PI], the canonical range of a stored rotation. *)
Definition inCanonicalRange (v : number) : bool :=
  (0 <=? v)%float && (v <? 2 * JS.PI)%float.

(** [|a - b| <= eps]. *)
Definition within (eps a b : number) : bool :=
  (abs (a - b) <=? eps)%float.

(** The rounding slack of one rotation edit, [2^-51] radians. *)
Definition rotationSlack : number := 0x1p-51%float.

(** The camera effect did something. *)
Definition reframed (ops : list SceneOp) : bool :=
  match ops with
  | [] => false
  | _ => true
  end.

(** Boolean checks over a list of values, decided by evaluation. *)
Definition closedUnder (succ : number -> list number) (l : list number)
  : bool :=
  forallb (fun c => forallb (fun x => JS.mem x l) (succ c)) l.

Definition forAllSteps (P : number -> RotationStep -> bool) (l : list number)
  : bool :=
  forallb (fun c => forallb (P c) allRotationSteps) l.

(** One rotation edit from the stored value [c]: the value written is
    within the slack of the normalised target, and the target is in the
    canonical range. *)
Definition landsNearTarget (c : number) (r : RotationStep) : bool :=
  within rotationSlack
    (rotateStored (JS.orZero (Some c)) (rotationDegrees r))
    (normalizedRadians (JS.orZero (Some c)) (rotationDegrees r))
  && inCanonicalRange
       (normalizedRadians (JS.orZero (Some c)) (rotationDegrees r)).

(** *** Invariants of the reachable states *)

(** The panel's axis belongs to the axes of its mode. *)
Definition panelCoherent (p : PanelState) : Prop :=
  isRotationAxis (selectedAxis p) =
  match transformMode p with
  | rotation => true
  | position => false
  end.

(** Every stored rotation is one of the enumerated values. *)
Definition rotationsInOrbit (m : gmap string ModelTransformations) : Prop :=
  forall fileName t axis v,
    m !! fileName = Some t ->
    isRotationAxis axis = true ->
    getAxis t axis = Some v ->
    In v rotationOrbit.

Definition rotationInvariant (s : AppState) : Prop :=
  panelCoherent (panel s) /\ rotationsInOrbit (modelTransformations s).

(** Objects in the list are pairwise distinct and were allocated before
    the next free address. *)
Definition heapInvariant (s : AppState) : Prop :=
  NoDup (map address (loadedFiles s))
  /\ Forall (fun f => address f < nextAddress s) (loadedFiles s).

(** The file at row [i] carries the palette colour of index [i]. *)
Definition paletteInvariant (s : AppState) : Prop :=
  forall i f, loadedFiles s !! i = Some f ->
              color f = AVAILABLE_COLORS !! (i mod 7).

(** Between events the effect's dependency and the recorded count both
    equal the number of loaded files, and the group is attached. *)
Definition framerInvariant (s : AppState) : Prop :=
  effectDeps s = length (loadedFiles s)
  /\ previousFileCountRef (scene s) = length (loadedFiles s)
  /\ groupRef (scene s) = true.

Definition isUpload (ev : Event) : bool :=
  match ev with
  | FileInputChange _ => true
  | _ => false
  end.

(* ================================================================== *)
(** ** [FileList.tsx]: the displayed file name *)

Definition MAX_FILENAME_LENGTH : nat := 33.
Definition TRUNCATE_AT : nat := 30.

(** The four characters matched by [/\.stl$/i].  Under the [i] flag each
    letter of the pattern matches itself in either case; a character of a
    string stands for one UTF-16 code unit. *)
Definition isStlExtension (ext : string) : bool :=
  match ext with
  | String a (String b (String c (String d EmptyString))) =>
      Ascii.eqb a "."%char
      && (Ascii.eqb b "s"%char || Ascii.eqb b "S"%char)
      && (Ascii.eqb c "t"%char || Ascii.eqb c "T"%char)
      && (Ascii.eqb d "l"%char || Ascii.eqb d "L"%char)
  | _ => false
  end.

(** [fileName.replace(/\.stl$/i, '')]: the pattern is anchored at the end
    of the input, so at most the last four characters are removed. *)
Definition stripExtension (fileName : string) : string :=
  let n := String.length fileName in
  if (4 <=? n) && isStlExtension (substring (n - 4) 4 fileName)
  then substring 0 (n - 4) fileName
  else fileName.

(** The spellings of the extension matched by [/\.stl$/i]. *)
Definition stlSpellings : list string :=
  [".stl"; ".stL"; ".sTl"; ".sTL"; ".Stl"; ".StL"; ".STl"; ".STL"].

(** [formatFileName]. *)
Definition formatFileName (fileName : string) : string :=
  let baseFileName := stripExtension fileName in
  if MAX_FILENAME_LENGTH <? String.length baseFileName
  then String.append (substring 0 TRUNCATE_AT baseFileName) "..."
  else baseFileName.

(* ================================================================== *)
(** ** What [ModelsContainer] renders *)

(** The props of one [<mesh>]: its name, the URL its geometry is loaded
    from, position, rotation, and the colour of its material. *)
Record Mesh : Type := mkMesh {
  meshName : string;
  meshGeometry : BlobURL;
  meshPosition : Vector3;
  meshRotation : Vector3;
  meshColor : string
}.

(** [STLModel]. *)
Definition STLModel (stlFile : STLFile) (color : string)
  (transformations : ModelTransformations) : Mesh :=
  mkMesh (name stlFile) (url stlFile)
    (vec3 (JS.orZero (get_positionX transformations))
          (JS.orZero (get_positionY transformations))
          (JS.orZero (get_positionZ transformations)))
    (vec3 (JS.orZero (get_rotationX transformations))
          (JS.orZero (get_rotationY transformations))
          (JS.orZero (get_rotationZ transformations)))
    color.

(** The coordinate of a mesh that belongs to an axis: the components of
    [position] and [rotation], in the order x, y, z. *)
Definition meshCoordinate (m : Mesh) (axis : TransformationAxis) : number :=
  match axis with
  | positionX => vx (meshPosition m)
  | positionY => vy (meshPosition m)
  | positionZ => vz (meshPosition m)
  | rotationX => vx (meshRotation m)
  | rotationY => vy (meshRotation m)
  | rotationZ => vz (meshRotation m)
  end.

(** [file.color || '#858585']: a missing or empty colour is falsy. *)
Definition colorOrDefault (c : option string) : string :=
  match c with
  | Some (String a rest) => String a rest
  | _ => "#858585"
  end.

(** The [color] prop computed for a file. *)
Definition modelColor (selectedFile : option STLFile) (file : STLFile)
  : string :=
  if isSelected selectedFile file then "red" else colorOrDefault (color file).

(** The children of the [<group>]: one mesh per visible file, in list
    order. *)
Definition renderModels (s : AppState) : list Mesh :=
  map (fun file =>
         STLModel file (modelColor (selectedFile s) file)
           (meshTransformations s file))
    (visibleFiles s).

(** The meshes drawn in the highlight colour. *)
Definition redMeshes (s : AppState) : list Mesh :=
  filter (fun m => meshColor m = "red") (renderModels s).

(* ================================================================== *)
(** ** The degrees column of the rotation table *)

(** The integer part of a non-negative finite number. *)
Definition integerPart (x : number) : Z :=
  match Prim2SF x with
  | S754_finite false m e =>
      if (0 <=? e)%Z then (Z.pos m * 2 ^ e)%Z else (Z.pos m / 2 ^ (- e))%Z
  | _ => 0%Z
  end.

(** The whole number of degrees in 0..359 a number is equal to, if any. *)
Definition wholeDegrees (x : number) : option Z :=
  let k := integerPart x in
  if (0 <=? k)%Z && (k <? 360)%Z && Leibniz.eqb (JS.ofZ k) x
  then Some k else None.

(** The increment of a rotation button as an integer. *)
Definition rotationStepZ (r : RotationStep) : Z :=
  match r with
  | RotMinus5 => -5
  | RotMinus2 => -2
  | RotMinus1 => -1
  | RotPlus1 => 1
  | RotPlus2 => 2
  | RotPlus5 => 5
  end%Z.

(** One rotation edit from the stored value [c]: the table shows a whole
    number of degrees before and after, and the second is the first plus
    the increment, modulo 360. *)
Definition displayAdvances (c : number) (r : RotationStep) : bool :=
  match wholeDegrees (radiansToDegrees (JS.orZero (Some c))),
        wholeDegrees
          (radiansToDegrees
             (JS.orZero
                (Some (rotateStored (JS.orZero (Some c)) (rotationDegrees r)))))
  with
  | Some k, Some k' => Z.eqb k' ((k + rotationStepZ r) mod 360)
  | _, _ => false
  end.

(* ================================================================== *)
(** ** Further invariants of the reachable states *)

(** Blob URLs of the loaded files are pairwise distinct and were minted
    before the next one. *)
Definition urlInvariant (s : AppState) : Prop :=
  NoDup (map url (loadedFiles s))
  /\ Forall (fun f => url f < nextURL s) (loadedFiles s).

(** Every loaded file has its flag and its colour set. *)
Definition fieldsDefined (s : AppState) : Prop :=
  Forall (fun f => is_Some (visible f) /\ is_Some (color f)) (loadedFiles s).

(** While nothing is selected the panel is in its initial state. *)
Definition panelReset (s : AppState) : Prop :=
  selectedFile s = None -> panel s = initialPanel.

(** The selected object is one of the objects of the list. *)
Definition selectionAttached (s : AppState) : Prop :=
  forall f, selectedFile s = Some f -> f ∈ loadedFiles s.

(** The event is not a click on the eye button of the row drawn as
    selected. *)
Definition sparesSelection (ev : Event) (s : AppState) : bool :=
  match ev with
  | EyeButtonClick row =>
      match loadedFiles s !! row with
      | Some f => negb (isSelected (selectedFile s) f)
      | None => true
      end
  | _ => true
  end.

(** No event of the session, started in [s], is such a click. *)
Fixpoint sessionSparesSelection
  (measure : list STLFile -> gmap string ModelTransformations -> Box3)
  (evs : list Event) (s : AppState) : bool :=
  match evs with
  | [] => true
  | ev :: rest =>
      sparesSelection ev s
      && sessionSparesSelection measure rest (fst (step measure ev s))
  end.

(** The names of all files chosen during a session, in order. *)
Definition uploadedNames (evs : list Event) : list string :=
  flat_map (fun ev => match ev with
                      | FileInputChange uploadedFiles => uploadedFiles
                      | _ => []
                      end) evs.

(** The events of the transformation panel. *)
Definition isPanelEvent (ev : Event) : bool :=
  match ev with
  | ModeButtonClick _ | AxisButtonClick _ | PositionButtonClick _
  | RotationButtonClick _ | UnitSelectChange _ => true
  | _ => false
  end.

(** The bounding box of a group without geometry, as [Box3.makeEmpty]
    leaves it. *)
Definition emptyBox : Box3 :=
  box3 (vec3 infinity infinity infinity)
       (vec3 neg_infinity neg_infinity neg_infinity).

(* ================================================================== *)
(** * Properties *)

(** ** Palette *)

Lemma getColorByIndex_nat (n : nat) :
  getColorByIndex (Z.of_nat n) = AVAILABLE_COLORS !! (n mod 7).
Proof.
  unfold getColorByIndex.
  change (Z.of_nat (length AVAILABLE_COLORS)) with 7%Z.
  assert (Hr : Z.rem (Z.of_nat n) 7 = Z.of_nat (n mod 7)).
  { rewrite Z.rem_mod_nonneg by lia. rewrite Nat2Z.inj_mod. reflexivity. }
  rewrite Hr.
  destruct (Z.ltb_spec (Z.of_nat (n mod 7)) 0) as [Hneg | _]; [lia |].
  rewrite Nat2Z.id. reflexivity.
Qed.

(** C10: for every nonnegative integer index, [getColorByIndex] returns a
    defined colour, and that colour is one of the seven strings of the
    palette. *)
Theorem getColorByIndex_total (index : Z) :
  (0 <= index)%Z ->
  exists c, getColorByIndex index = Some c
            /\ In c ["#858585"; "#9a9a9a"; "#b0b0b0"; "#c5c5c5";
                     "#dbdbdb"; "#eeeeee"; "#ffffff"].
Proof.
  intros Hpos.
  rewrite <- (Z2Nat.id index Hpos), getColorByIndex_nat.
  assert (Hlt : Z.to_nat index mod 7 < 7) by (apply Nat.mod_upper_bound; lia).
  destruct (Z.to_nat index mod 7) as [|[|[|[|[|[|[|k]]]]]]]; simpl;
    try (eexists; split; [reflexivity | simpl; tauto]).
  lia.
Qed.

Lemma getColorByIndex_total_witness :
  (0 <= 9)%Z /\
  exists c, getColorByIndex 9 = Some c
            /\ In c ["#858585"; "#9a9a9a"; "#b0b0b0"; "#c5c5c5";
                     "#dbdbdb"; "#eeeeee"; "#ffffff"].
Proof.
  split; [lia | apply (getColorByIndex_total 9); lia].
Defined.

(** Outside the claimed domain the palette read is undefined. *)
Example getColorByIndex_negative : getColorByIndex (-1) = None.
Proof. reflexivity. Qed.

(* ================================================================== *)
(** ** Unit conversion *)

(** The factors, as doubles. *)
Lemma UNIT_TO_MM_number :
  UNIT_TO_MM mm = 1%float /\ UNIT_TO_MM cm = 10%float
  /\ UNIT_TO_MM inches = 0x1.9666666666666p+4%float.
Proof. repeat split; vm_compute; reflexivity. Qed.


(** On doubles the round trip is exact for the millimetre steps of the
    buttons taken the way the panel takes them (divide, then multiply),
    except for one of them. *)
Example button_steps_round_trip :
  valueInMM (valueInSTLUnits 10%float inches) inches = 10%float
  /\ valueInMM (valueInSTLUnits 1%float cm) cm = 1%float
  /\ valueInMM (valueInSTLUnits 1%float inches) inches = 0x1.fffffffffffffp-1%float.
Proof. repeat split; vm_compute; reflexivity. Qed.

(* ================================================================== *)
(** ** Rotation normalisation *)

(** The normalisation on the two wraparound examples: with 350 degrees
    stored, an increment of +20 degrees normalises to the radian value of
    10 degrees; with 5 degrees stored, an increment of -20 degrees
    normalises to the radian value of 345 degrees. *)
Lemma rotation_wraparound :
  normalizedRadians (350 * JS.PI / 180) 20 = (10 * JS.PI / 180)%float
  /\ normalizedRadians (5 * JS.PI / 180) (-20) = (345 * JS.PI / 180)%float
  /\ radiansToDegrees (350 * JS.PI / 180) = 350%float
  /\ radiansToDegrees (5 * JS.PI / 180) = 5%float
  /\ JS.rem (JS.rem 370 360 + 360) 360 = 10%float
  /\ JS.rem (JS.rem (-15) 360 + 360) 360 = 345%float.
Proof. repeat split; vm_compute; reflexivity. Qed.

(** The values then written to the store by [updateModelTransformation]:
    the second is the target itself, the first is the target up to the
    rounding of [current + (target - current)]. *)
Example rotation_wraparound_stored :
  rotateStored (5 * JS.PI / 180) (-20) = (345 * JS.PI / 180)%float
  /\ rotateStored (350 * JS.PI / 180) 20 = 0x1.657184ae7448p-3%float
  /\ (10 * JS.PI / 180)%float = 0x1.657184ae74487p-3%float
  /\ within rotationSlack (rotateStored (350 * JS.PI / 180) 20)
       (10 * JS.PI / 180) = true.
Proof. repeat split; vm_compute; reflexivity. Qed.

(* ================================================================== *)
(** ** Generic facts about sessions *)

Lemma run_app (measure : list STLFile -> gmap string ModelTransformations -> Box3)
  (evs1 evs2 : list Event) (s : AppState) :
  run measure (evs1 ++ evs2) s = run measure evs2 (run measure evs1 s).
Proof. unfold run. apply fold_left_app. Qed.

(** An invariant of every step holds throughout a session. *)
Lemma run_invariant (P : AppState -> Prop)
  (measure : list STLFile -> gmap string ModelTransformations -> Box3) :
  (forall ev s, P s -> P (fst (step measure ev s))) ->
  forall evs s, P s -> P (run measure evs s).
Proof.
  intros Hstep evs. induction evs as [| ev evs IH]; intros s Hs.
  - exact Hs.
  - simpl. apply IH, Hstep, Hs.
Qed.

(** What [commit] keeps. *)
Lemma commit_fields measure (s : AppState) :
  let s' := fst (commit measure s) in
  loadedFiles s' = loadedFiles s
  /\ selectedFile s' = selectedFile s
  /\ modelTransformations s' = modelTransformations s
  /\ stlUnit s' = stlUnit s
  /\ nextAddress s' = nextAddress s
  /\ effectDeps s' = length (loadedFiles s).
Proof.
  unfold commit.
  destruct (Nat.eqb_spec (length (loadedFiles s)) (effectDeps s)) as [He | Hne].
  - simpl. repeat split; congruence.
  - destruct (cameraEffect _ _ _) as [sc ops]. simpl. repeat split.
Qed.

(** Handlers other than the upload keep the number of loaded files. *)
Lemma toggleIn_length (file : STLFile) (files : list STLFile) (next : nat) :
  length (fst (toggleIn file next files)) = length files.
Proof.
  revert next. induction files as [| f rest IH]; intros next; simpl.
  - reflexivity.
  - destruct (sameObject f file).
    + specialize (IH (S next)). destruct (toggleIn file (S next) rest).
      simpl in *. congruence.
    + specialize (IH next). destruct (toggleIn file next rest).
      simpl in *. congruence.
Qed.

Lemma handle_length (ev : Event) (s : AppState) :
  isUpload ev = false ->
  length (loadedFiles (handle ev s)) = length (loadedFiles s).
Proof.
  destruct ev; simpl; intros Hup; try discriminate; try reflexivity.
  - destruct (loadedFiles s !! row); reflexivity.
  - destruct (loadedFiles s !! row) as [file |]; [| reflexivity].
    unfold toggleFileVisibility.
    pose proof (toggleIn_length file (loadedFiles s) (nextAddress s)) as Hl.
    destruct (toggleIn file (nextAddress s) (loadedFiles s)). exact Hl.
  - destruct (selectedFile s); reflexivity.
  - destruct (selectedFile s); [| reflexivity].
    destruct (existsb _ _); reflexivity.
  - destruct (selectedFile s); [| reflexivity].
    destruct (transformMode (panel s)); reflexivity.
  - destruct (selectedFile s); [| reflexivity].
    destruct (transformMode (panel s)); reflexivity.
  - destruct (selectedFile s); [| reflexivity].
    destruct (transformMode (panel s)); reflexivity.
Qed.

Lemma handle_scene (ev : Event) (s : AppState) :
  scene (handle ev s) = scene s /\ effectDeps (handle ev s) = effectDeps s.
Proof.
  destruct ev; simpl; try (split; reflexivity).
  - destruct (loadedFiles s !! row); split; reflexivity.
  - destruct (loadedFiles s !! row) as [file |]; [| split; reflexivity].
    unfold toggleFileVisibility.
    destruct (toggleIn file (nextAddress s) (loadedFiles s)). split; reflexivity.
  - destruct (selectedFile s); split; reflexivity.
  - destruct (selectedFile s); [| split; reflexivity].
    destruct (existsb _ _); split; reflexivity.
  - destruct (selectedFile s); [| split; reflexivity].
    destruct (transformMode (panel s)); split; reflexivity.
  - destruct (selectedFile s); [| split; reflexivity].
    destruct (transformMode (panel s)); split; reflexivity.
  - destruct (selectedFile s); [| split; reflexivity].
    destruct (transformMode (panel s)); split; reflexivity.
Qed.

(* ================================================================== *)
(** ** Scene framing *)

(** When the guard of the effect holds. *)
Lemma cameraEffect_reframed (box : Box3) (files : list STLFile) (sc : Scene) :
  reframed (snd (cameraEffect box files sc)) = true <->
  groupRef sc = true /\ 0 < length files
  /\ length files <> previousFileCountRef sc.
Proof.
  unfold cameraEffect.
  destruct (groupRef sc); simpl.
  - destruct (Nat.ltb_spec 0 (length files)) as [Hpos | Hzero]; simpl.
    + destruct (Nat.eqb_spec (length files) (previousFileCountRef sc))
        as [Heq | Hne]; simpl.
      * split; [discriminate | intros (_ & _ & Hn); contradiction].
      * split; [intros _; repeat split; assumption | reflexivity].
    + split; [discriminate | intros (_ & Hp & _); lia].
  - split; [discriminate | intros (Hg & _); discriminate].
Qed.

Lemma cameraEffect_idle (box : Box3) (files : list STLFile) (sc : Scene) :
  reframed (snd (cameraEffect box files sc)) = false ->
  cameraEffect box files sc = (sc, []).
Proof.
  unfold cameraEffect.
  destruct (groupRef sc && (0 <? length files)
            && negb (length files =? previousFileCountRef sc)); simpl.
  - discriminate.
  - reflexivity.
Qed.

(** The invariant of the framer. *)
Lemma framerInvariant_initial : framerInvariant initialState.
Proof. repeat split. Qed.

Lemma handle_length_le (ev : Event) (s : AppState) :
  length (loadedFiles s) <= length (loadedFiles (handle ev s)).
Proof.
  destruct (isUpload ev) eqn:Hup.
  - destruct ev; try discriminate. simpl. rewrite length_app. lia.
  - rewrite handle_length by exact Hup. lia.
Qed.

Lemma framerInvariant_step measure (ev : Event) (s : AppState) :
  framerInvariant s -> framerInvariant (fst (step measure ev s)).
Proof.
  intros (Hdeps & Hprev & Hgroup). unfold step, framerInvariant.
  destruct (handle_scene ev s) as [Hsc Hd].
  pose proof (handle_length_le ev s) as Hle.
  unfold commit. rewrite Hsc, Hd.
  destruct (Nat.eqb_spec (length (loadedFiles (handle ev s))) (effectDeps s))
    as [He | Hne].
  - simpl. repeat split; congruence.
  - unfold cameraEffect. rewrite Hgroup, Hprev. simpl.
    destruct (Nat.ltb_spec 0 (length (loadedFiles (handle ev s))))
      as [Hpos | Hzero]; [| lia].
    destruct (Nat.eqb_spec (length (loadedFiles (handle ev s)))
                (length (loadedFiles s))) as [Heq | Hneq]; [congruence |].
    simpl. repeat split.
Qed.

Lemma framerInvariant_run measure (evs : list Event) :
  framerInvariant (run measure evs initialState).
Proof.
  apply run_invariant.
  - apply framerInvariant_step.
  - exact framerInvariant_initial.
Qed.

(** C5: with no file loaded, the effect computes no bounding box, issues
    no call on the group or the camera and leaves the scene as it was;
    so does the render of any state whose file list is empty. *)
Theorem framer_noop_without_models
  (measure : list STLFile -> gmap string ModelTransformations -> Box3) :
  (forall box sc, cameraEffect box [] sc = (sc, []))
  /\ (forall s, loadedFiles s = [] ->
                snd (commit measure s) = []
                /\ scene (fst (commit measure s)) = scene s).
Proof.
  assert (Hnil : forall box sc, cameraEffect box [] sc = (sc, [])).
  { intros box sc. unfold cameraEffect. simpl.
    rewrite andb_false_r. reflexivity. }
  split; [exact Hnil |].
  intros s Hempty. unfold commit. rewrite Hempty.
  destruct (length [] =? effectDeps s).
  - split; reflexivity.
  - rewrite Hnil. split; reflexivity.
Qed.

Lemma framer_noop_without_models_witness :
  loadedFiles initialState = []
  /\ snd (commit unitCube initialState) = []
  /\ scene (fst (commit unitCube initialState)) = scene initialState.
Proof.
  split; [reflexivity |].
  apply (proj2 (framer_noop_without_models unitCube) initialState).
  reflexivity.
Defined.

(** C2, as stated, fails: with two files loaded and shown, hiding one
    takes the number of visible models from the recorded 2 to 1, and the
    camera effect does nothing. *)
Lemma hiding_a_model_does_not_reframe :
  let s := run unitCube [FileInputChange ["a.stl"; "b.stl"]] initialState in
  length (visibleFiles s) = 2
  /\ previousFileCountRef (scene s) = 2
  /\ length (visibleFiles (fst (step unitCube (EyeButtonClick 1) s))) = 1
  /\ snd (step unitCube (EyeButtonClick 1) s) = [].
Proof. vm_compute. repeat split. Qed.

(** The count transitions named by the claim, on the effect itself. *)
Example cameraEffect_count_changes (box : Box3) (a b : STLFile) (g p : Vector3)
  (l : option Vector3) :
  reframed (snd (cameraEffect box [a] (mkScene true g p l 0))) = true
  /\ reframed (snd (cameraEffect box [a; b] (mkScene true g p l 1))) = true
  /\ reframed (snd (cameraEffect box [a] (mkScene true g p l 2))) = true
  /\ cameraEffect box [a; b] (mkScene true g p l 2) = (mkScene true g p l 2, []).
Proof. repeat split. Qed.

(** C2, amended: the count the framer watches is the number of loaded
    files, hidden ones included.  The effect reframes exactly when the
    group is attached and that number is positive and differs from the
    recorded one; in a session, every event other than an upload (so every
    visibility toggle and every transform edit) keeps that number and
    produces no reframe, and every upload of at least one file reframes. *)
Theorem reframe_on_file_count_change
  (measure : list STLFile -> gmap string ModelTransformations -> Box3) :
  (forall box files sc,
      reframed (snd (cameraEffect box files sc)) = true <->
      groupRef sc = true /\ 0 < length files
      /\ length files <> previousFileCountRef sc)
  /\ (forall evs ev,
         isUpload ev = false ->
         let s := run measure evs initialState in
         length (loadedFiles (fst (step measure ev s))) = length (loadedFiles s)
         /\ snd (step measure ev s) = [])
  /\ (forall evs uploadedFiles,
         uploadedFiles <> [] ->
         let s := run measure evs initialState in
         reframed (snd (step measure (FileInputChange uploadedFiles) s)) = true).
Proof.
  split; [exact cameraEffect_reframed |]. split.
  - intros evs ev Hup s.
    destruct (framerInvariant_run measure evs) as (Hdeps & _ & _).
    fold s in Hdeps.
    destruct (handle_scene ev s) as [_ Hd].
    pose proof (handle_length ev s Hup) as Hlen.
    unfold step.
    destruct (commit_fields measure (handle ev s)) as (Hfiles & _).
    split; [rewrite Hfiles; exact Hlen |].
    unfold commit. rewrite Hd, Hdeps, Hlen, Nat.eqb_refl. reflexivity.
  - intros evs uploadedFiles Hne s.
    destruct (framerInvariant_run measure evs) as (Hdeps & Hprev & Hgroup).
    fold s in Hdeps, Hprev, Hgroup.
    assert (Hlen : length (loadedFiles (handleFileUpload uploadedFiles s))
                   = length (loadedFiles s) + length uploadedFiles).
    { simpl. rewrite length_app, length_imap. reflexivity. }
    assert (Hpos : 0 < length uploadedFiles).
    { destruct uploadedFiles; [contradiction | simpl; lia]. }
    unfold step, commit. simpl handle.
    change (effectDeps (handleFileUpload uploadedFiles s)) with (effectDeps s).
    change (scene (handleFileUpload uploadedFiles s)) with (scene s).
    destruct (Nat.eqb_spec
                (length (loadedFiles (handleFileUpload uploadedFiles s)))
                (effectDeps s)) as [He | Hneq]; [lia |].
    match goal with
    | |- context [cameraEffect ?b ?f ?sc] =>
        pose proof (proj2 (cameraEffect_reframed b f sc)) as Hre;
        destruct (cameraEffect b f sc) as [sc' ops]
    end.
    simpl in *. apply Hre. repeat split; [exact Hgroup | lia | lia].
Qed.

Lemma reframe_on_file_count_change_witness :
  let s := run unitCube [FileInputChange ["a.stl"; "b.stl"]] initialState in
  isUpload (EyeButtonClick 1) = false
  /\ length (loadedFiles (fst (step unitCube (EyeButtonClick 1) s)))
     = length (loadedFiles s)
  /\ snd (step unitCube (EyeButtonClick 1) s) = [].
Proof.
  split; [reflexivity |].
  apply (proj1 (proj2 (reframe_on_file_count_change unitCube))
           [FileInputChange ["a.stl"; "b.stl"]] (EyeButtonClick 1)).
  reflexivity.
Defined.

(* ================================================================== *)
(** ** The transformation store is keyed by file name *)

Lemma updateModelTransformation_other (fileName other : string)
  (axis : TransformationAxis) (value : number)
  (m : gmap string ModelTransformations) :
  fileName <> other ->
  updateModelTransformation fileName axis value m !! other = m !! other.
Proof. intros Hne. unfold updateModelTransformation. apply lookup_insert_ne, Hne. Qed.

Lemma getAxis_setAxis (t : ModelTransformations) (axis : TransformationAxis)
  (v : number) :
  getAxis (setAxis t axis v) axis = Some v.
Proof. destruct axis; reflexivity. Qed.

Lemma getAxis_setAxis_other (t : ModelTransformations)
  (axis other : TransformationAxis) (v : number) :
  axis <> other -> getAxis (setAxis t axis v) other = getAxis t other.
Proof. destruct axis, other; intros Hne; try reflexivity; contradiction. Qed.

Lemma updateModelTransformation_same (fileName : string)
  (axis : TransformationAxis) (value : number)
  (m : gmap string ModelTransformations) :
  updateModelTransformation fileName axis value m !! fileName
  ≫= (fun t => getAxis t axis)
  = Some (readAxis m fileName axis + value)%float.
Proof.
  unfold updateModelTransformation. rewrite lookup_insert_eq. simpl.
  apply getAxis_setAxis.
Qed.

(** Only the record filed under the selected file's name can change. *)
Lemma handle_transformations_other (ev : Event) (s : AppState) (other : string) :
  (forall f, selectedFile s = Some f -> name f <> other) ->
  modelTransformations (handle ev s) !! other = modelTransformations s !! other.
Proof.
  intros Hsel. destruct ev; simpl; try reflexivity.
  - destruct (loadedFiles s !! row); reflexivity.
  - destruct (loadedFiles s !! row) as [file |]; [| reflexivity].
    unfold toggleFileVisibility.
    destruct (toggleIn file (nextAddress s) (loadedFiles s)). reflexivity.
  - destruct (selectedFile s); reflexivity.
  - destruct (selectedFile s); [| reflexivity].
    destruct (existsb _ _); reflexivity.
  - destruct (selectedFile s) as [file |]; [| reflexivity].
    destruct (transformMode (panel s)); [| reflexivity].
    simpl. apply updateModelTransformation_other, Hsel. reflexivity.
  - destruct (selectedFile s) as [file |]; [| reflexivity].
    destruct (transformMode (panel s)); [reflexivity |].
    simpl. apply updateModelTransformation_other, Hsel. reflexivity.
  - destruct (selectedFile s); [| reflexivity].
    destruct (transformMode (panel s)); reflexivity.
Qed.

(** C1, as stated, fails: two loaded models with distinct blob URLs and
    the same file name share one record, so moving the first by 10 mm
    changes the transformations applied to the second. *)
Lemma same_name_models_share_transform :
  let f := mkSTLFile 0 "part.stl" 0 (Some true) (Some "#858585") in
  let g := mkSTLFile 1 "part.stl" 1 (Some true) (Some "#9a9a9a") in
  let s := run unitCube [FileInputChange ["part.stl"; "part.stl"];
                         FileRowClick 0] initialState in
  let s' := fst (step unitCube (PositionButtonClick PosPlus10) s) in
  loadedFiles s = [f; g] /\ selectedFile s = Some f /\ url f <> url g
  /\ meshTransformations s g = emptyTransformations
  /\ meshTransformations s' g = setAxis emptyTransformations positionX 10
  /\ meshTransformations s' g <> meshTransformations s g.
Proof.
  vm_compute. repeat split; try discriminate.
Qed.

(** C1, amended: records are keyed by the file name.  An update filed
    under one name leaves the record of every other name unchanged; in the
    application no event changes the transformations of a model whose name
    differs from the selected model's; and two models with the same name
    are always drawn with the same record. *)
Theorem transforms_keyed_by_name
  (measure : list STLFile -> gmap string ModelTransformations -> Box3) :
  (forall fileName other axis value m,
      fileName <> other ->
      updateModelTransformation fileName axis value m !! other = m !! other)
  /\ (forall ev s g,
         (forall f, selectedFile s = Some f -> name f <> name g) ->
         meshTransformations (fst (step measure ev s)) g = meshTransformations s g)
  /\ (forall s f g, name f = name g ->
                    meshTransformations s f = meshTransformations s g).
Proof.
  split; [exact updateModelTransformation_other |]. split.
  - intros ev s g Hsel. unfold meshTransformations, step.
    destruct (commit_fields measure (handle ev s)) as (_ & _ & Hm & _).
    rewrite Hm, (handle_transformations_other ev s (name g) Hsel). reflexivity.
  - intros s f g Hname. unfold meshTransformations. rewrite Hname. reflexivity.
Qed.

Lemma transforms_keyed_by_name_witness :
  "a.stl" <> "b.stl"
  /\ updateModelTransformation "a.stl" positionX 10 ∅ !! "b.stl"
     = (∅ : gmap string ModelTransformations) !! "b.stl".
Proof.
  split; [discriminate |].
  apply (proj1 (transforms_keyed_by_name unitCube)). discriminate.
Defined.

(* ================================================================== *)
(** ** Object identity of the loaded files *)

Lemma sameObject_refl (f : STLFile) : sameObject f f = true.
Proof. apply Nat.eqb_refl. Qed.

(** What [toggleIn] does to the list, row by row. *)
Lemma toggleIn_spec (file : STLFile) (files : list STLFile) (next : nat) :
  let '(files', next') := toggleIn file next files in
  next <= next'
  /\ length files' = length files
  /\ (forall i f', files' !! i = Some f' ->
        exists f, files !! i = Some f
                  /\ name f' = name f /\ url f' = url f /\ color f' = color f
                  /\ ((sameObject f file = false /\ f' = f)
                      \/ (sameObject f file = true
                          /\ visible f' = Some (notVisible f)
                          /\ next <= address f' < next'))).
Proof.
  revert next. induction files as [| f rest IH]; intros next; simpl.
  - repeat split; [lia | intros i f' Hi; rewrite lookup_nil in Hi; discriminate].
  - destruct (sameObject f file) eqn:Hsame.
    + specialize (IH (S next)). destruct (toggleIn file (S next) rest) as [rest' next'].
      destruct IH as (Hle & Hlen & Hrows). repeat split; [lia | simpl; lia |].
      intros [| i] f' Hi; simpl in Hi.
      * injection Hi as <-. exists f. simpl. repeat split.
        right. repeat split; [exact Hsame | lia | lia].
      * destruct (Hrows i f' Hi) as (f0 & Hf0 & Hn & Hu & Hc & Hcase).
        exists f0. repeat split; try assumption.
        destruct Hcase as [Hkeep | (Hs & Hv & Ha)]; [left; exact Hkeep |].
        right. repeat split; [exact Hs | exact Hv | lia | lia].
    + specialize (IH next). destruct (toggleIn file next rest) as [rest' next'].
      destruct IH as (Hle & Hlen & Hrows). repeat split; [lia | simpl; lia |].
      intros [| i] f' Hi; simpl in Hi.
      * injection Hi as <-. exists f. repeat split. left. split; [exact Hsame | reflexivity].
      * exact (Hrows i f' Hi).
Qed.

Lemma toggleIn_heap (file : STLFile) (files : list STLFile) (next : nat) :
  NoDup (map address files) ->
  Forall (fun f => address f < next) files ->
  NoDup (map address (fst (toggleIn file next files)))
  /\ Forall (fun f => address f < snd (toggleIn file next files))
       (fst (toggleIn file next files)).
Proof.
  revert next. induction files as [| f rest IH]; intros next Hnd Hlt; simpl.
  - split; constructor.
  - apply NoDup_cons in Hnd as [Hnotin Hnd].
    apply Forall_cons in Hlt as [Hf Hrest].
    assert (Hbound : forall nx, next <= nx -> forall a,
               a ∈ map address (fst (toggleIn file nx rest)) ->
               a ∈ map address rest \/ nx <= a).
    { intros nx Hnx a Ha. apply list_elem_of_fmap in Ha as (f' & -> & Hin).
      apply list_elem_of_lookup in Hin as [i Hi].
      pose proof (toggleIn_spec file rest nx) as Hspec.
      destruct (toggleIn file nx rest) as [rest' next']. simpl in Hi.
      destruct Hspec as (_ & _ & Hrows).
      destruct (Hrows i f' Hi) as (f0 & Hf0 & _ & _ & _ & Hcase).
      destruct Hcase as [[_ ->] | (_ & _ & Ha)]; [left | right; lia].
      apply list_elem_of_fmap. exists f0. split; [reflexivity |].
      apply list_elem_of_lookup. exists i. exact Hf0. }
    assert (Hold : forall a, a ∈ map address rest -> a < next).
    { intros a Ha. apply list_elem_of_fmap in Ha as (f' & -> & Hin).
      rewrite Forall_forall in Hrest. apply Hrest, Hin. }
    destruct (sameObject f file) eqn:Hsame.
    + assert (Hrest' : Forall (fun f => address f < S next) rest).
      { eapply Forall_impl; [exact Hrest | simpl; intros; lia]. }
      specialize (IH (S next) Hnd Hrest').
      specialize (Hbound (S next) (Nat.le_succ_diag_r next)).
      pose proof (toggleIn_spec file rest (S next)) as Hspec.
      destruct (toggleIn file (S next) rest) as [rest' next']. simpl in *.
      destruct IH as [IHnd IHlt]. destruct Hspec as (Hle & _ & _).
      split.
      * apply NoDup_cons. split; [| exact IHnd].
        intros Hin. destruct (Hbound _ Hin) as [Ho | Hge]; [| lia].
        apply Hold in Ho. lia.
      * apply Forall_cons. split; [simpl; lia | exact IHlt].
    + specialize (IH next Hnd Hrest).
      specialize (Hbound next (Nat.le_refl next)).
      pose proof (toggleIn_spec file rest next) as Hspec.
      destruct (toggleIn file next rest) as [rest' next']. simpl in *.
      destruct IH as [IHnd IHlt]. destruct Hspec as (Hle & _ & _).
      split.
      * apply NoDup_cons. split; [| exact IHnd].
        intros Hin. destruct (Hbound _ Hin) as [Ho | Hge]; [contradiction | lia].
      * apply Forall_cons. split; [lia | exact IHlt].
Qed.

Lemma imap_addresses (names : list string) (next : nat)
  (mk : nat -> string -> STLFile) :
  (forall i n, address (mk i n) = next + i) ->
  map address (imap mk names) = map (fun i => next + i) (seq 0 (length names)).
Proof.
  intros Hmk. apply list_eq. intros i.
  rewrite !list_lookup_fmap, list_lookup_imap.
  destruct (names !! i) as [n |] eqn:Hn; simpl.
  - rewrite lookup_seq_lt by (eapply lookup_lt_Some; exact Hn).
    simpl. rewrite Hmk. reflexivity.
  - rewrite lookup_seq_ge by (apply lookup_ge_None; exact Hn). reflexivity.
Qed.

Lemma heapInvariant_initial : heapInvariant initialState.
Proof. split; constructor. Qed.

Lemma heapInvariant_handle (ev : Event) (s : AppState) :
  heapInvariant s -> heapInvariant (handle ev s).
Proof.
  intros [Hnd Hlt]. destruct ev; simpl; try (split; assumption).
  - (* upload *)
    unfold heapInvariant. simpl. split.
    + rewrite map_app.
      rewrite (imap_addresses uploadedFiles (nextAddress s)) by reflexivity.
      apply NoDup_app. split; [exact Hnd |]. split.
      * intros a Ha Hb. apply list_elem_of_fmap in Ha as (f & -> & Hin).
        rewrite Forall_forall in Hlt. apply Hlt in Hin.
        apply list_elem_of_fmap in Hb as (i & Hi & _). lia.
      * apply NoDup_fmap_2; [intros i j; lia | apply NoDup_seq].
    + apply Forall_app. split.
      * eapply Forall_impl; [exact Hlt | simpl; intros; lia].
      * apply Forall_forall. intros f Hin.
        apply list_elem_of_lookup in Hin as [i Hi].
        rewrite list_lookup_imap in Hi.
        destruct (uploadedFiles !! i) as [n |] eqn:Hn; [| discriminate].
        injection Hi as <-. simpl. apply lookup_lt_Some in Hn. lia.
  - destruct (loadedFiles s !! row); split; assumption.
  - destruct (loadedFiles s !! row) as [file |]; [| split; assumption].
    unfold toggleFileVisibility, heapInvariant.
    pose proof (toggleIn_heap file (loadedFiles s) (nextAddress s) Hnd Hlt) as Hh.
    destruct (toggleIn file (nextAddress s) (loadedFiles s)). exact Hh.
  - destruct (selectedFile s); split; assumption.
  - destruct (selectedFile s); [| split; assumption].
    destruct (existsb _ _); split; assumption.
  - destruct (selectedFile s); [| split; assumption].
    destruct (transformMode (panel s)); split; assumption.
  - destruct (selectedFile s); [| split; assumption].
    destruct (transformMode (panel s)); split; assumption.
  - destruct (selectedFile s); [| split; assumption].
    destruct (transformMode (panel s)); split; assumption.
Qed.

Lemma heapInvariant_run measure (evs : list Event) :
  heapInvariant (run measure evs initialState).
Proof.
  apply run_invariant; [| exact heapInvariant_initial].
  intros ev s Hs. unfold step, heapInvariant.
  destruct (commit_fields measure (handle ev s)) as (Hf & _ & _ & _ & Hn & _).
  rewrite Hf, Hn. apply heapInvariant_handle, Hs.
Qed.

Lemma at_most_one_address (a : nat) (files : list STLFile) :
  NoDup (map address files) ->
  length (filter (fun f => (address f =? a) = true) files) <= 1.
Proof.
  induction files as [| f rest IH]; intros Hnd.
  - rewrite filter_nil. simpl. lia.
  - simpl in Hnd. apply NoDup_cons in Hnd as [Hnotin Hnd]. specialize (IH Hnd).
    rewrite filter_cons. destruct (decide ((address f =? a) = true)) as [Heq | Hne].
    + apply Nat.eqb_eq in Heq. simpl.
      assert (Hnone : filter (fun f => (address f =? a) = true) rest = []).
      { destruct (filter (fun f => (address f =? a) = true) rest)
          as [| g tail] eqn:Hfilter; [reflexivity |].
        assert (Hg : g ∈ filter (fun f => (address f =? a) = true) rest)
          by (rewrite Hfilter; left).
        apply list_elem_of_filter in Hg as [Hga Hg].
        apply Nat.eqb_eq in Hga. exfalso. apply Hnotin.
        apply list_elem_of_fmap. exists g. split; [congruence | exact Hg]. }
      rewrite Hnone. simpl. lia.
    + exact IH.
Qed.

(* ================================================================== *)
(** ** Selection *)

Lemma step_FileRowClick measure (s : AppState) (row : nat) (f : STLFile) :
  loadedFiles s !! row = Some f ->
  loadedFiles (fst (step measure (FileRowClick row) s)) = loadedFiles s
  /\ selectedFile (fst (step measure (FileRowClick row) s))
     = selectedFile (handleFileSelection f s).
Proof.
  intros Hrow. unfold step.
  destruct (commit_fields measure (handle (FileRowClick row) s))
    as (Hf & Hs & _).
  rewrite Hf, Hs. simpl handle. rewrite Hrow. split; reflexivity.
Qed.

(** On object identity: [handleFileSelection] clears the selection when
    handed the selected file and selects the file otherwise; selecting a file that is
    not selected twice in a row (directly, or by two clicks on its row)
    leaves nothing selected; and in every reachable state at most one row
    of the list is drawn as selected. *)
Theorem selection_toggles
  (measure : list STLFile -> gmap string ModelTransformations -> Box3) :
  (forall s f, isSelected (selectedFile s) f = true ->
               selectedFile (handleFileSelection f s) = None)
  /\ (forall s f, isSelected (selectedFile s) f = false ->
                  selectedFile (handleFileSelection f s) = Some f)
  /\ (forall s f, isSelected (selectedFile s) f = false ->
                  selectedFile (handleFileSelection f (handleFileSelection f s))
                  = None)
  /\ (forall s row f,
         loadedFiles s !! row = Some f ->
         isSelected (selectedFile s) f = false ->
         selectedFile (run measure [FileRowClick row; FileRowClick row] s) = None)
  /\ (forall evs, length (selectedRows (run measure evs initialState)) <= 1).
Proof.
  assert (H1 : forall s f, isSelected (selectedFile s) f = true ->
                           selectedFile (handleFileSelection f s) = None).
  { intros s f Hsel. simpl. rewrite Hsel. reflexivity. }
  assert (H2 : forall s f, isSelected (selectedFile s) f = false ->
                           selectedFile (handleFileSelection f s) = Some f).
  { intros s f Hsel. simpl. rewrite Hsel. reflexivity. }
  split; [exact H1 |]. split; [exact H2 |]. split; [| split].
  - intros s f Hsel. apply H1. rewrite (H2 s f Hsel). simpl.
    apply sameObject_refl.
  - intros s row f Hrow Hsel.
    change (run measure [FileRowClick row; FileRowClick row] s)
      with (fst (step measure (FileRowClick row)
                   (fst (step measure (FileRowClick row) s)))).
    destruct (step_FileRowClick measure s row f Hrow) as [Hf Hs].
    destruct (step_FileRowClick measure
                (fst (step measure (FileRowClick row) s)) row f) as [_ Hs'].
    { rewrite Hf. exact Hrow. }
    rewrite Hs'. apply H1. rewrite Hs, (H2 s f Hsel). simpl.
    apply sameObject_refl.
  - intros evs. destruct (heapInvariant_run measure evs) as [Hnd _].
    unfold selectedRows.
    destruct (selectedFile (run measure evs initialState)) as [x |]; simpl.
    + exact (at_most_one_address (address x) _ Hnd).
    + clear Hnd.
      induction (loadedFiles (run measure evs initialState)) as [| f l IH].
      * rewrite filter_nil. simpl. lia.
      * rewrite filter_cons_False by discriminate. exact IH.
Qed.

Lemma selection_toggles_witness :
  let a := mkSTLFile 0 "a.stl" 0 (Some true) (Some "#858585") in
  let s := run unitCube [FileInputChange ["a.stl"]] initialState in
  isSelected (selectedFile s) a = false
  /\ selectedFile (handleFileSelection a (handleFileSelection a s)) = None.
Proof.
  split; [reflexivity |].
  apply (proj1 (proj2 (proj2 (selection_toggles unitCube)))). reflexivity.
Defined.

(* ================================================================== *)
(** ** Visibility *)

(** What the toggle leaves alone: the store, the selection state and
    every property of every file other than the flag of the one toggled. *)
Lemma toggleFileVisibility_frame (file : STLFile) (s : AppState) :
  let s' := toggleFileVisibility file s in
  modelTransformations s' = modelTransformations s
  /\ selectedFile s' = selectedFile s
  /\ length (loadedFiles s') = length (loadedFiles s)
  /\ (forall i f', loadedFiles s' !! i = Some f' ->
        exists f, loadedFiles s !! i = Some f
                  /\ name f' = name f /\ url f' = url f /\ color f' = color f
                  /\ (sameObject f file = false -> f' = f)
                  /\ (sameObject f file = true ->
                      visible f' = Some (notVisible f))).
Proof.
  unfold toggleFileVisibility.
  pose proof (toggleIn_spec file (loadedFiles s) (nextAddress s)) as Hspec.
  destruct (toggleIn file (nextAddress s) (loadedFiles s)) as [files next].
  destruct Hspec as (_ & Hlen & Hrows). simpl.
  repeat split; [exact Hlen |].
  intros i f' Hi. destruct (Hrows i f' Hi) as (f & Hf & Hn & Hu & Hc & Hcase).
  exists f. repeat split; try assumption.
  - intros Hs. destruct Hcase as [[_ ->] | (Hs' & _)]; [reflexivity | congruence].
  - intros Hs. destruct Hcase as [[Hs' _] | (_ & Hv & _)]; [congruence | exact Hv].
Qed.

(** C3 on the code: load one file, select it, then hide it.  The store is
    untouched and [selectedFile] still holds the object that was selected,
    but the list now holds a new object for that model: no row is drawn as
    selected any more, and a click on the model's row selects the new
    object instead of clearing the selection. *)
Theorem toggle_detaches_selection :
  let a := mkSTLFile 0 "a.stl" 0 (Some true) (Some "#858585") in
  let a' := mkSTLFile 1 "a.stl" 0 (Some false) (Some "#858585") in
  let s := run unitCube [FileInputChange ["a.stl"]; FileRowClick 0]
             initialState in
  let s' := fst (step unitCube (EyeButtonClick 0) s) in
  loadedFiles s = [a] /\ selectedFile s = Some a /\ selectedRows s = [a]
  /\ loadedFiles s' = [a'] /\ selectedFile s' = Some a /\ selectedRows s' = []
  /\ modelTransformations s' = modelTransformations s
  /\ selectedFile (fst (step unitCube (FileRowClick 0) s')) = Some a'.
Proof. vm_compute. repeat split. Qed.

(* ================================================================== *)
(** ** Colours of the loaded files *)

Lemma handleFileUpload_new_row (uploadedFiles : list string) (s : AppState)
  (k : nat) :
  loadedFiles (handleFileUpload uploadedFiles s) !! (length (loadedFiles s) + k)
  = (fun fileName =>
       mkSTLFile (nextAddress s + k) fileName (nextURL s + k) (Some true)
         (AVAILABLE_COLORS !! ((length (loadedFiles s) + k) mod 7)))
    <$> uploadedFiles !! k.
Proof.
  simpl. rewrite lookup_app_r by lia.
  replace (length (loadedFiles s) + k - length (loadedFiles s)) with k by lia.
  rewrite list_lookup_imap. destruct (uploadedFiles !! k); simpl; [| reflexivity].
  rewrite getColorByIndex_nat. reflexivity.
Qed.

(** Every handler keeps the rows already present, with their name, URL
    and colour. *)
Lemma handle_rows (ev : Event) (s : AppState) (i : nat) (f : STLFile) :
  loadedFiles s !! i = Some f ->
  exists f', loadedFiles (handle ev s) !! i = Some f'
             /\ name f' = name f /\ url f' = url f /\ color f' = color f.
Proof.
  intros Hi.
  assert (Hsame : exists f', loadedFiles s !! i = Some f'
                     /\ name f' = name f /\ url f' = url f /\ color f' = color f)
    by (exists f; repeat split; assumption).
  destruct ev; simpl; try exact Hsame.
  - exists f. split; [apply lookup_app_l_Some, Hi | repeat split].
  - destruct (loadedFiles s !! row); exact Hsame.
  - destruct (loadedFiles s !! row) as [file |]; [| exact Hsame].
    destruct (toggleFileVisibility_frame file s) as (_ & _ & Hlen & Hrows).
    destruct (lookup_lt_is_Some_2 (loadedFiles (toggleFileVisibility file s)) i)
      as [f' Hf'].
    { rewrite Hlen. eapply lookup_lt_Some, Hi. }
    exists f'. split; [exact Hf' |].
    destruct (Hrows i f' Hf') as (f0 & Hf0 & Hn & Hu & Hc & _).
    rewrite Hi in Hf0. injection Hf0 as <-. repeat split; assumption.
  - destruct (selectedFile s); exact Hsame.
  - destruct (selectedFile s); [| exact Hsame].
    destruct (existsb _ _); exact Hsame.
  - destruct (selectedFile s); [| exact Hsame].
    destruct (transformMode (panel s)); exact Hsame.
  - destruct (selectedFile s); [| exact Hsame].
    destruct (transformMode (panel s)); exact Hsame.
  - destruct (selectedFile s); [| exact Hsame].
    destruct (transformMode (panel s)); exact Hsame.
Qed.

Lemma handleFileUpload_length (uploadedFiles : list string) (s : AppState) :
  length (loadedFiles (handleFileUpload uploadedFiles s))
  = length (loadedFiles s) + length uploadedFiles.
Proof. simpl. rewrite length_app, length_imap. reflexivity. Qed.

Lemma paletteInvariant_handle (ev : Event) (s : AppState) :
  paletteInvariant s -> paletteInvariant (handle ev s).
Proof.
  intros Hpal i f' Hi'.
  destruct (Nat.lt_ge_cases i (length (loadedFiles s))) as [Hlt | Hge].
  - destruct (lookup_lt_is_Some_2 (loadedFiles s) i Hlt) as [f Hf].
    destruct (handle_rows ev s i f Hf) as (f'' & Hf'' & _ & _ & Hc).
    rewrite Hi' in Hf''. injection Hf'' as <-.
    rewrite Hc. apply Hpal, Hf.
  - destruct (isUpload ev) eqn:Hup.
    + destruct ev; try discriminate.
      pose proof (handleFileUpload_new_row uploadedFiles s
                    (i - length (loadedFiles s))) as Hnew.
      replace (length (loadedFiles s) + (i - length (loadedFiles s)))
        with i in Hnew by lia.
      simpl handle in Hi'. rewrite Hnew in Hi'.
      destruct (uploadedFiles !! (i - length (loadedFiles s))); [| discriminate].
      injection Hi' as <-. reflexivity.
    + apply lookup_lt_Some in Hi'. rewrite handle_length in Hi' by exact Hup. lia.
Qed.

Lemma paletteInvariant_run measure (evs : list Event) :
  paletteInvariant (run measure evs initialState).
Proof.
  apply run_invariant.
  - intros ev s Hs. unfold step, paletteInvariant.
    destruct (commit_fields measure (handle ev s)) as (Hf & _).
    rewrite Hf. apply paletteInvariant_handle, Hs.
  - intros i f Hi. simpl in Hi. rewrite lookup_nil in Hi. discriminate.
Qed.

(** C8: an uploaded file receives the palette colour whose index is the
    number of files loaded before it (those already in the list plus those
    ahead of it in the same upload), modulo 7; no event changes the colour
    of a loaded file; hence in every reachable state row [i] carries colour
    [i mod 7], and the eighth file has the colour of the first. *)
Theorem palette_cycle
  (measure : list STLFile -> gmap string ModelTransformations -> Box3) :
  (forall s uploadedFiles k fileName,
      uploadedFiles !! k = Some fileName ->
      exists f,
        loadedFiles (handleFileUpload uploadedFiles s)
          !! (length (loadedFiles s) + k) = Some f
        /\ name f = fileName
        /\ color f = getColorByIndex (Z.of_nat (length (loadedFiles s) + k))
        /\ color f = AVAILABLE_COLORS !! ((length (loadedFiles s) + k) mod 7))
  /\ (forall ev s i f,
         loadedFiles s !! i = Some f ->
         exists f', loadedFiles (fst (step measure ev s)) !! i = Some f'
                    /\ url f' = url f /\ color f' = color f)
  /\ (forall evs i f,
         loadedFiles (run measure evs initialState) !! i = Some f ->
         color f = AVAILABLE_COLORS !! (i mod 7))
  /\ (forall evs f1 f8,
         loadedFiles (run measure evs initialState) !! 0 = Some f1 ->
         loadedFiles (run measure evs initialState) !! 7 = Some f8 ->
         color f8 = color f1).
Proof.
  split; [| split; [| split]].
  - intros s uploadedFiles k fileName Hk.
    eexists. rewrite handleFileUpload_new_row, Hk. simpl.
    split; [reflexivity |]. split; [reflexivity |].
    split; [symmetry; apply getColorByIndex_nat | reflexivity].
  - intros ev s i f Hi. unfold step.
    destruct (commit_fields measure (handle ev s)) as (Hf & _). rewrite Hf.
    destruct (handle_rows ev s i f Hi) as (f' & Hf' & _ & Hu & Hc).
    exists f'. repeat split; assumption.
  - intros evs. exact (paletteInvariant_run measure evs).
  - intros evs f1 f8 H1 H8.
    rewrite (paletteInvariant_run measure evs 0 f1 H1).
    rewrite (paletteInvariant_run measure evs 7 f8 H8). reflexivity.
Qed.

Lemma palette_cycle_witness :
  let evs := [FileInputChange ["1.stl"; "2.stl"; "3.stl"];
              EyeButtonClick 0;
              FileInputChange ["4.stl"; "5.stl"; "6.stl"; "7.stl"; "8.stl"]] in
  let f1 := mkSTLFile 3 "1.stl" 0 (Some false) (Some "#858585") in
  let f8 := mkSTLFile 8 "8.stl" 7 (Some true) (Some "#858585") in
  loadedFiles (run unitCube evs initialState) !! 0 = Some f1
  /\ loadedFiles (run unitCube evs initialState) !! 7 = Some f8
  /\ color f8 = color f1.
Proof.
  split; [vm_compute; reflexivity |]. split; [vm_compute; reflexivity |].
  apply (proj2 (proj2 (proj2 (palette_cycle unitCube)))
           [FileInputChange ["1.stl"; "2.stl"; "3.stl"];
            EyeButtonClick 0;
            FileInputChange ["4.stl"; "5.stl"; "6.stl"; "7.stl"; "8.stl"]]);
    vm_compute; reflexivity.
Defined.

(* ================================================================== *)
(** ** Stored rotations *)

Lemma mem_In (x : number) (l : list number) : JS.mem x l = true -> In x l.
Proof.
  unfold JS.mem. rewrite existsb_exists. intros (y & Hy & He).
  apply Leibniz.eqb_spec in He. subst y. exact Hy.
Qed.

Lemma In_allRotationSteps (r : RotationStep) : In r allRotationSteps.
Proof. destruct r; simpl; tauto. Qed.

(** Reading the boolean checks, for any list of values. *)
Lemma closedUnder_spec (succ : number -> list number) (l : list number) :
  closedUnder succ l = true ->
  forall c x, In c l -> In x (succ c) -> In x l.
Proof.
  unfold closedUnder. intros Hall c x Hc Hx. rewrite forallb_forall in Hall.
  specialize (Hall c Hc). rewrite forallb_forall in Hall.
  apply mem_In, Hall, Hx.
Qed.

Lemma forAllSteps_spec (P : number -> RotationStep -> bool) (l : list number) :
  forAllSteps P l = true ->
  forall c r, In c l -> P c r = true.
Proof.
  unfold forAllSteps. intros Hall c r Hc. rewrite forallb_forall in Hall.
  specialize (Hall c Hc). rewrite forallb_forall in Hall.
  apply Hall, In_allRotationSteps.
Qed.

(** The three facts established by enumeration. *)
Lemma orbit_closed : closedUnder rotationSuccessors rotationOrbit = true.
Proof. vm_compute. reflexivity. Qed.

Lemma orbit_in_range : forallb inCanonicalRange rotationOrbit = true.
Proof. vm_compute. reflexivity. Qed.

Lemma orbit_lands_near : forAllSteps landsNearTarget rotationOrbit = true.
Proof. vm_compute. reflexivity. Qed.

Lemma orbit_zero : In 0%float rotationOrbit.
Proof. apply mem_In. vm_compute. reflexivity. Qed.

Lemma orbit_step (c : number) (r : RotationStep) :
  In c rotationOrbit ->
  In (rotateStored (JS.orZero (Some c)) (rotationDegrees r)) rotationOrbit.
Proof.
  intros Hc.
  apply (closedUnder_spec rotationSuccessors rotationOrbit orbit_closed c).
  - exact Hc.
  - exact (in_map (fun r => rotateStored (JS.orZero (Some c)) (rotationDegrees r))
             allRotationSteps r (In_allRotationSteps r)).
Qed.

Lemma orbit_range (c : number) :
  In c rotationOrbit -> inCanonicalRange c = true.
Proof.
  intros Hc. exact (proj1 (forallb_forall inCanonicalRange rotationOrbit)
                      orbit_in_range c Hc).
Qed.

Lemma orbit_near (c : number) (r : RotationStep) :
  In c rotationOrbit ->
  within rotationSlack
    (rotateStored (JS.orZero (Some c)) (rotationDegrees r))
    (normalizedRadians (JS.orZero (Some c)) (rotationDegrees r)) = true
  /\ inCanonicalRange
       (normalizedRadians (JS.orZero (Some c)) (rotationDegrees r)) = true.
Proof.
  intros Hc. apply andb_true_iff.
  exact (forAllSteps_spec landsNearTarget rotationOrbit orbit_lands_near c r Hc).
Qed.

Lemma orZero_orbit (c : number) :
  In c rotationOrbit -> In (JS.orZero (Some c)) rotationOrbit.
Proof.
  intros Hc. simpl. destruct (JS.truthy c); [exact Hc | exact orbit_zero].
Qed.

(** What a read of a rotation axis yields when the store holds
    enumerated values only. *)
Lemma readAxis_orbit (m : gmap string ModelTransformations) (fileName : string)
  (axis : TransformationAxis) :
  rotationsInOrbit m -> isRotationAxis axis = true ->
  exists c, In c rotationOrbit /\ readAxis m fileName axis = JS.orZero (Some c).
Proof.
  intros Hm Hrot. unfold readAxis.
  destruct (m !! fileName) as [t |] eqn:Ht; simpl.
  - destruct (getAxis t axis) as [v |] eqn:Hv.
    + exists v. split; [exact (Hm fileName t axis v Ht Hrot Hv) | reflexivity].
    + exists 0%float. split; [exact orbit_zero | reflexivity].
  - exists 0%float. split; [exact orbit_zero | reflexivity].
Qed.

Lemma axisEqb_eq (a b : TransformationAxis) : axisEqb a b = true -> a = b.
Proof. destruct a, b; simpl; intros H; try reflexivity; discriminate. Qed.

(** An update keeps the stored rotations enumerated when it either
    targets a position axis or writes an enumerated value. *)
Lemma rotationsInOrbit_update (m : gmap string ModelTransformations)
  (fileName : string) (axis : TransformationAxis) (value : number) :
  rotationsInOrbit m ->
  (isRotationAxis axis = true ->
   In (readAxis m fileName axis + value)%float rotationOrbit) ->
  rotationsInOrbit (updateModelTransformation fileName axis value m).
Proof.
  intros Hm Hnew other t a v Hlook Hrot Hget.
  unfold updateModelTransformation in Hlook.
  destruct (decide (fileName = other)) as [-> | Hne].
  - rewrite lookup_insert_eq in Hlook. injection Hlook as <-.
    destruct (axisEqb axis a) eqn:Hax;
      [apply axisEqb_eq in Hax; subst a
      | assert (Hax' : axis <> a)
          by (intros ->; destruct a; discriminate); clear Hax; rename Hax' into Hax].
    + rewrite getAxis_setAxis in Hget. injection Hget as <-.
      apply Hnew, Hrot.
    + rewrite getAxis_setAxis_other in Hget by exact Hax.
      destruct (m !! other) as [t0 |] eqn:Ht0; simpl in Hget.
      * exact (Hm other t0 a v Ht0 Hrot Hget).
      * destruct a; discriminate.
  - rewrite lookup_insert_ne in Hlook by exact Hne.
    exact (Hm other t a v Hlook Hrot Hget).
Qed.

Lemma rotationInvariant_initial : rotationInvariant initialState.
Proof.
  split; [reflexivity |].
  intros fileName t axis v Hlook. simpl in Hlook.
  rewrite lookup_empty in Hlook. discriminate.
Qed.

(** The next value written by a rotation button is enumerated. *)
Lemma rotation_write_orbit (m : gmap string ModelTransformations)
  (fileName : string) (axis : TransformationAxis) (r : RotationStep) :
  rotationsInOrbit m -> isRotationAxis axis = true ->
  In (readAxis m fileName axis
      + (normalizedRadians (readAxis m fileName axis) (rotationDegrees r)
         - readAxis m fileName axis))%float rotationOrbit.
Proof.
  intros Hm Hrot.
  destruct (readAxis_orbit m fileName axis Hm Hrot) as (c & Hc & ->).
  exact (orbit_step c r Hc).
Qed.

Lemma rotationInvariant_handle (ev : Event) (s : AppState) :
  rotationInvariant s -> rotationInvariant (handle ev s).
Proof.
  intros [Hpanel Hm]. unfold rotationInvariant.
  destruct ev; simpl; try (split; assumption).
  - destruct (loadedFiles s !! row); split; assumption.
  - destruct (loadedFiles s !! row) as [file |]; [| split; assumption].
    unfold toggleFileVisibility.
    destruct (toggleIn file (nextAddress s) (loadedFiles s)). split; assumption.
  - destruct (selectedFile s); [| split; assumption].
    split; [destruct mode; reflexivity | exact Hm].
  - destruct (selectedFile s); [| split; assumption].
    destruct (existsb (axisEqb axis) (currentAxes (panel s))) eqn:Hax;
      [| split; assumption].
    split; [| exact Hm]. unfold panelCoherent. simpl.
    apply existsb_exists in Hax as (a & Ha & Heq).
    apply axisEqb_eq in Heq. subst a. unfold currentAxes in Ha.
    destruct (transformMode (panel s)); simpl in Ha;
      destruct Ha as [<- | [<- | [<- | []]]]; reflexivity.
  - destruct (selectedFile s) as [file |]; [| split; assumption].
    destruct (transformMode (panel s)) eqn:Hmode; [| split; assumption].
    split; [exact Hpanel |]. simpl.
    apply rotationsInOrbit_update; [exact Hm |].
    unfold panelCoherent in Hpanel. rewrite Hmode in Hpanel.
    intros Hrot. congruence.
  - destruct (selectedFile s) as [file |]; [| split; assumption].
    destruct (transformMode (panel s)) eqn:Hmode; [split; assumption |].
    split; [exact Hpanel |]. simpl.
    apply rotationsInOrbit_update; [exact Hm |].
    intros Hrot. apply rotation_write_orbit; assumption.
  - destruct (selectedFile s); [| split; assumption].
    destruct (transformMode (panel s)); split; assumption.
Qed.

Lemma commit_panel measure (s : AppState) :
  panel (fst (commit measure s))
  = match selectedFile s with
    | Some _ => panel s
    | None => initialPanel
    end.
Proof.
  unfold commit. destruct (length (loadedFiles s) =? effectDeps s).
  - reflexivity.
  - destruct (cameraEffect _ _ _). reflexivity.
Qed.

Lemma rotationInvariant_run measure (evs : list Event) :
  rotationInvariant (run measure evs initialState).
Proof.
  apply run_invariant; [| exact rotationInvariant_initial].
  intros ev s Hs. apply (rotationInvariant_handle ev) in Hs as [Hpanel Hm].
  unfold step, rotationInvariant.
  destruct (commit_fields measure (handle ev s)) as (_ & _ & Hmt & _).
  rewrite Hmt, commit_panel. split; [| exact Hm].
  destruct (selectedFile (handle ev s)); [exact Hpanel | reflexivity].
Qed.

(** C4, as stated, fails on the doubles the program computes with: from a
    fresh model, the buttons -2 and then +5 store a value that is not the
    normalised target of the second edit (3 degrees). *)
Lemma rotation_edit_misses_target :
  let s := run unitCube [FileInputChange ["a.stl"]; FileRowClick 0;
                         ModeButtonClick rotation;
                         RotationButtonClick RotMinus2] initialState in
  let current := readAxis (modelTransformations s) "a.stl" rotationX in
  let target := normalizedRadians current (rotationDegrees RotPlus5) in
  let s' := fst (step unitCube (RotationButtonClick RotPlus5) s) in
  current = degreesToRadians 358
  /\ target = degreesToRadians 3
  /\ target = 0x1.acee9f37bebd5p-5%float
  /\ readAxis (modelTransformations s') "a.stl" rotationX
     = 0x1.acee9f37bec00p-5%float
  /\ (readAxis (modelTransformations s') "a.stl" rotationX =? target)%float
     = false.
Proof. vm_compute. repeat split. Qed.

(** C4, amended: in every reachable state every stored rotation, of every
    file name and rotation axis, lies in [0, 2π).  A rotation button
    passes the increment [target - current], where [target] is the
    normalised target angle, itself in [0, 2π); the value then stored is
    [current + (target - current)], which equals the target up to rounding
    (within 2^-51 radians) rather than exactly. *)
Theorem rotation_canonical
  (measure : list STLFile -> gmap string ModelTransformations -> Box3)
  (evs : list Event) :
  let s := run measure evs initialState in
  (forall fileName axis,
      isRotationAxis axis = true ->
      inCanonicalRange (readAxis (modelTransformations s) fileName axis) = true)
  /\ (forall file r,
         selectedFile s = Some file ->
         transformMode (panel s) = rotation ->
         let axis := selectedAxis (panel s) in
         let current := readAxis (modelTransformations s) (name file) axis in
         let target := normalizedRadians current (rotationDegrees r) in
         let s' := fst (step measure (RotationButtonClick r) s) in
         isRotationAxis axis = true
         /\ updateRotation (modelTransformations s) (name file) axis
              (rotationDegrees r)
            = (name file, axis, (target - current)%float)
         /\ modelTransformations s' !! name file ≫= (fun t => getAxis t axis)
            = Some (current + (target - current))%float
         /\ within rotationSlack (current + (target - current)) target = true
         /\ inCanonicalRange target = true).
Proof.
  intros s. destruct (rotationInvariant_run measure evs) as [Hpanel Hm].
  fold s in Hpanel, Hm. split.
  - intros fileName axis Hrot.
    destruct (readAxis_orbit _ fileName axis Hm Hrot) as (c & Hc & ->).
    apply orbit_range, orZero_orbit, Hc.
  - intros file r Hsel Hmode axis current target s'.
    assert (Hrot : isRotationAxis axis = true).
    { unfold panelCoherent in Hpanel. rewrite Hmode in Hpanel. exact Hpanel. }
    split; [exact Hrot |]. split; [reflexivity |]. split.
    + unfold s', step.
      destruct (commit_fields measure (handle (RotationButtonClick r) s))
        as (_ & _ & Hmt & _).
      rewrite Hmt. simpl handle. rewrite Hsel, Hmode. simpl.
      apply updateModelTransformation_same.
    + destruct (readAxis_orbit _ (name file) axis Hm Hrot) as (c & Hc & Hcur).
      unfold target, current. rewrite Hcur.
      exact (orbit_near c r Hc).
Qed.

Lemma rotation_canonical_witness :
  let s := run unitCube [FileInputChange ["a.stl"]; FileRowClick 0;
                         ModeButtonClick rotation;
                         RotationButtonClick RotMinus2;
                         RotationButtonClick RotPlus5] initialState in
  isRotationAxis rotationX = true
  /\ inCanonicalRange (readAxis (modelTransformations s) "a.stl" rotationX) = true.
Proof.
  split; [reflexivity |].
  apply (proj1 (rotation_canonical unitCube
                  [FileInputChange ["a.stl"]; FileRowClick 0;
                   ModeButtonClick rotation;
                   RotationButtonClick RotMinus2;
                   RotationButtonClick RotPlus5])).
  reflexivity.
Defined.

(* ================================================================== *)
(** ** The displayed file name *)

Lemma length_substring_0 (n : nat) (s : string) :
  String.length (substring 0 n s) = Nat.min n (String.length s).
Proof.
  revert n. induction s as [| c s IH]; intros [| n]; simpl; try reflexivity.
  rewrite IH. reflexivity.
Qed.

Lemma length_string_append (a b : string) :
  String.length (String.append a b) = String.length a + String.length b.
Proof. induction a as [| c a IH]; simpl; [reflexivity | rewrite IH; reflexivity]. Qed.

Lemma substring_0_substring_0 (n m : nat) (s : string) :
  n <= m -> substring 0 n (substring 0 m s) = substring 0 n s.
Proof.
  revert n m. induction s as [| c s IH]; intros [| n] [| m] Hle; simpl;
    try reflexivity; try lia.
  rewrite IH by lia. reflexivity.
Qed.

Lemma substring_append_left (a b : string) :
  substring 0 (String.length a) (String.append a b) = a.
Proof. induction a as [| c a IH]; simpl; [destruct b | rewrite IH]; reflexivity. Qed.

Lemma substring_0_all (b : string) : substring 0 (String.length b) b = b.
Proof. induction b as [| c b IH]; simpl; [| rewrite IH]; reflexivity. Qed.

Lemma substring_append_right (a b : string) :
  substring (String.length a) (String.length b) (String.append a b) = b.
Proof. induction a as [| c a IH]; simpl; [apply substring_0_all | exact IH]. Qed.

Lemma isStlExtension_length (ext : string) :
  isStlExtension ext = true -> String.length ext = 4.
Proof.
  destruct ext as [| a [| b [| c [| d [| e ext]]]]]; simpl; intros H;
    try discriminate; reflexivity.
Qed.

Lemma stripExtension_length (fileName : string) :
  String.length (stripExtension fileName) <= String.length fileName.
Proof.
  unfold stripExtension.
  destruct ((4 <=? String.length fileName)
            && isStlExtension _); [| lia].
  rewrite length_substring_0. lia.
Qed.

Lemma stripExtension_prefix (fileName : string) (n : nat) :
  n <= String.length (stripExtension fileName) ->
  substring 0 n (stripExtension fileName) = substring 0 n fileName.
Proof.
  unfold stripExtension.
  destruct ((4 <=? String.length fileName) && isStlExtension _);
    [| reflexivity].
  rewrite length_substring_0. intros Hn.
  apply substring_0_substring_0. lia.
Qed.

(** X1. The text shown for a file never exceeds 33 characters; a base name
    of more than 33 characters is shown as the first 30 characters of the
    file name followed by three dots, any other base name in full. *)
Theorem formatFileName_bounded (fileName : string) :
  String.length (formatFileName fileName) <= 33
  /\ (33 < String.length (stripExtension fileName) ->
      formatFileName fileName
      = String.append (substring 0 30 fileName) "..."
      /\ String.length (formatFileName fileName) = 33)
  /\ (String.length (stripExtension fileName) <= 33 ->
      formatFileName fileName = stripExtension fileName).
Proof.
  unfold formatFileName, MAX_FILENAME_LENGTH, TRUNCATE_AT.
  destruct (Nat.ltb_spec 33 (String.length (stripExtension fileName)))
    as [Hlong | Hshort]; cbv iota.
  - assert (Hlen : String.length
                     (String.append (substring 0 30 (stripExtension fileName)) "...")
                   = 33).
    { rewrite length_string_append, length_substring_0.
      change (String.length "...") with 3. lia. }
    split; [lia |]. split; [| lia].
    intros _. split; [| exact Hlen].
    rewrite stripExtension_prefix by lia. reflexivity.
  - split; [exact Hshort |]. split; [lia | reflexivity].
Qed.

Lemma formatFileName_bounded_witness :
  33 < String.length (stripExtension "a_very_long_file_name_for_a_small_bracket.stl")
  /\ formatFileName "a_very_long_file_name_for_a_small_bracket.stl"
     = "a_very_long_file_name_for_a_sm...".
Proof.
  split; [vm_compute; lia |].
  apply (proj1 (proj2 (formatFileName_bounded
                         "a_very_long_file_name_for_a_small_bracket.stl"))).
  vm_compute. lia.
Defined.

Lemma substring_split (k : nat) (s : string) :
  k <= String.length s ->
  String.append (substring 0 k s) (substring k (String.length s - k) s) = s.
Proof.
  revert k. induction s as [| c s IH]; intros [| k] Hk.
  - reflexivity.
  - simpl in Hk. lia.
  - rewrite Nat.sub_0_r. simpl. rewrite substring_0_all. reflexivity.
  - simpl in Hk.
    change (String.length (String c s)) with (S (String.length s)).
    rewrite Nat.sub_succ.
    change (String c (String.append (substring 0 k s)
                        (substring k (String.length s - k) s)) = String c s).
    rewrite IH by lia. reflexivity.
Qed.

Lemma isStlExtension_spellings (ext : string) :
  isStlExtension ext = true <-> In ext stlSpellings.
Proof.
  split.
  - destruct ext as [| a [| b [| c [| d [| e ext]]]]]; simpl;
      try discriminate.
    intros H.
    apply andb_true_iff in H as [H Hd].
    apply andb_true_iff in H as [H Hc].
    apply andb_true_iff in H as [Ha Hb].
    apply Ascii.eqb_eq in Ha. subst a.
    apply orb_true_iff in Hb; apply orb_true_iff in Hc;
      apply orb_true_iff in Hd.
    destruct Hb as [Hb | Hb]; apply Ascii.eqb_eq in Hb; subst b;
      destruct Hc as [Hc | Hc]; apply Ascii.eqb_eq in Hc; subst c;
      destruct Hd as [Hd | Hd]; apply Ascii.eqb_eq in Hd; subst d;
      tauto.
  - intros Hin. simpl in Hin.
    repeat (destruct Hin as [<- | Hin]; [reflexivity |]). contradiction.
Qed.

(** X2. The extension removed from a file name is a final [.stl] in any
    of its eight spellings in upper and lower case, and nothing else: a
    name made of a base and one of the eight spellings is stripped to the
    base, once (a base that itself ends in [.stl] keeps it); and a name
    that is changed at all is such a base followed by one of the eight
    spellings. *)
Theorem stripExtension_spellings (fileName : string) :
  (forall base ext, In ext stlSpellings ->
                    stripExtension (String.append base ext) = base)
  /\ (stripExtension fileName <> fileName ->
      exists ext, In ext stlSpellings
                  /\ fileName = String.append (stripExtension fileName) ext).
Proof.
  split.
  - intros base ext Hin. apply isStlExtension_spellings in Hin as Hext.
    pose proof (isStlExtension_length ext Hext) as Hlen.
    unfold stripExtension. rewrite length_string_append, Hlen.
    replace (String.length base + 4 - 4) with (String.length base) by lia.
    assert (Hr : substring (String.length base) 4 (String.append base ext) = ext)
      by (rewrite <- Hlen; apply substring_append_right).
    rewrite Hr, Hext.
    replace (4 <=? String.length base + 4) with true
      by (symmetry; apply Nat.leb_le; lia).
    simpl. apply substring_append_left.
  - unfold stripExtension.
    destruct (Nat.leb_spec 4 (String.length fileName)) as [Hlen | Hshort];
      [| simpl; intros Hne; contradiction].
    destruct (isStlExtension
                (substring (String.length fileName - 4) 4 fileName)) eqn:Hext;
      [| simpl; intros Hne; contradiction].
    simpl. intros _.
    exists (substring (String.length fileName - 4) 4 fileName).
    split; [apply isStlExtension_spellings, Hext |].
    pose proof (substring_split (String.length fileName - 4) fileName) as Hsplit.
    replace (String.length fileName - (String.length fileName - 4)) with 4
      in Hsplit by lia.
    symmetry. apply Hsplit. lia.
Qed.

Lemma stripExtension_spellings_witness :
  In ".StL" stlSpellings
  /\ stripExtension (String.append "gear.stl" ".StL") = "gear.stl".
Proof.
  split; [simpl; tauto |].
  apply (proj1 (stripExtension_spellings "")). simpl. tauto.
Defined.

(* ================================================================== *)
(** ** The eye button *)

(** A file that is not an object of the list toggles nothing and
    allocates nothing. *)
Lemma toggleIn_absent (file : STLFile) (files : list STLFile) (next : nat) :
  Forall (fun g => sameObject g file = false) files ->
  toggleIn file next files = (files, next).
Proof.
  induction files as [| g rest IH]; intros Hall; simpl; [reflexivity |].
  apply Forall_cons in Hall as [Hg Hrest].
  rewrite Hg, (IH Hrest). reflexivity.
Qed.

(** With pairwise distinct objects, toggling the object of a row replaces
    that row alone, by one newly allocated copy. *)
Lemma toggleIn_row (files : list STLFile) (row next : nat) (f : STLFile) :
  NoDup (map address files) ->
  files !! row = Some f ->
  toggleIn f next files
  = (<[row := mkSTLFile next (name f) (url f) (Some (notVisible f)) (color f)]>
       files,
     S next).
Proof.
  revert row. induction files as [| g rest IH]; intros row Hnd Hrow.
  - rewrite lookup_nil in Hrow. discriminate.
  - simpl in Hnd. apply NoDup_cons in Hnd as [Hnotin Hnd].
    destruct row as [| row]; simpl in Hrow.
    + injection Hrow as ->. simpl. rewrite sameObject_refl.
      rewrite toggleIn_absent; [reflexivity |].
      apply Forall_forall. intros g Hg. apply Nat.eqb_neq. intros Heq.
      apply Hnotin. apply list_elem_of_fmap. exists g. split; [congruence | exact Hg].
    + simpl.
      assert (Hne : sameObject g f = false).
      { apply Nat.eqb_neq. intros Heq. apply Hnotin.
        apply list_elem_of_fmap. exists f. split; [exact Heq |].
        apply list_elem_of_lookup. exists row. exact Hrow. }
      rewrite Hne, (IH row Hnd Hrow). reflexivity.
Qed.

Lemma fieldsDefined_handle (ev : Event) (s : AppState) :
  fieldsDefined s -> fieldsDefined (handle ev s).
Proof.
  intros Hs. unfold fieldsDefined in *. apply Forall_forall. intros f' Hin.
  apply list_elem_of_lookup in Hin as [i Hi].
  destruct (Nat.lt_ge_cases i (length (loadedFiles s))) as [Hlt | Hge].
  - destruct (lookup_lt_is_Some_2 (loadedFiles s) i Hlt) as [f Hf].
    assert (Hdef : is_Some (visible f) /\ is_Some (color f)).
    { rewrite Forall_forall in Hs. apply Hs.
      apply list_elem_of_lookup. exists i. exact Hf. }
    destruct ev; simpl in Hi;
      try (rewrite Hf in Hi; injection Hi as <-; exact Hdef).
    + rewrite lookup_app_l in Hi by exact Hlt.
      rewrite Hf in Hi. injection Hi as <-. exact Hdef.
    + destruct (loadedFiles s !! row); simpl in Hi;
        rewrite Hf in Hi; injection Hi as <-; exact Hdef.
    + destruct (loadedFiles s !! row) as [file |];
        [| rewrite Hf in Hi; injection Hi as <-; exact Hdef].
      destruct (toggleFileVisibility_frame file s) as (_ & _ & _ & Hrows).
      destruct (Hrows i f' Hi) as (f0 & Hf0 & _ & _ & Hc & Hkeep & Hflip).
      rewrite Hf in Hf0. injection Hf0 as <-.
      destruct (sameObject f file) eqn:Hsame.
      * rewrite (Hflip eq_refl), Hc. split; [eexists; reflexivity | apply Hdef].
      * rewrite (Hkeep eq_refl). exact Hdef.
    + destruct (selectedFile s); simpl in Hi;
        rewrite Hf in Hi; injection Hi as <-; exact Hdef.
    + destruct (selectedFile s); [destruct (existsb _ _) |]; simpl in Hi;
        rewrite Hf in Hi; injection Hi as <-; exact Hdef.
    + destruct (selectedFile s); [destruct (transformMode (panel s)) |];
        simpl in Hi; rewrite Hf in Hi; injection Hi as <-; exact Hdef.
    + destruct (selectedFile s); [destruct (transformMode (panel s)) |];
        simpl in Hi; rewrite Hf in Hi; injection Hi as <-; exact Hdef.
    + destruct (selectedFile s); [destruct (transformMode (panel s)) |];
        simpl in Hi; rewrite Hf in Hi; injection Hi as <-; exact Hdef.
  - destruct (isUpload ev) eqn:Hup.
    + destruct ev; try discriminate.
      pose proof (handleFileUpload_new_row uploadedFiles s
                    (i - length (loadedFiles s))) as Hnew.
      replace (length (loadedFiles s) + (i - length (loadedFiles s)))
        with i in Hnew by lia.
      simpl handle in Hi. rewrite Hnew in Hi.
      destruct (uploadedFiles !! (i - length (loadedFiles s))); [| discriminate].
      assert (Hm : i mod 7 < length AVAILABLE_COLORS)
        by (apply Nat.mod_upper_bound; discriminate).
      injection Hi as <-. split; [eexists; reflexivity |].
      exact (lookup_lt_is_Some_2 AVAILABLE_COLORS (i mod 7) Hm).
    + apply lookup_lt_Some in Hi. rewrite handle_length in Hi by exact Hup. lia.
Qed.

Lemma fieldsDefined_run measure (evs : list Event) :
  fieldsDefined (run measure evs initialState).
Proof.
  apply run_invariant.
  - intros ev s Hs. unfold step, fieldsDefined.
    destruct (commit_fields measure (handle ev s)) as (Hf & _).
    rewrite Hf. apply fieldsDefined_handle, Hs.
  - constructor.
Qed.

Lemma step_EyeButtonClick measure (evs : list Event) (row : nat) (f : STLFile) :
  let s := run measure evs initialState in
  loadedFiles s !! row = Some f ->
  loadedFiles (fst (step measure (EyeButtonClick row) s))
  = <[row := mkSTLFile (nextAddress s) (name f) (url f)
               (Some (negb (isVisible f))) (color f)]> (loadedFiles s).
Proof.
  intros s Hrow. unfold step.
  destruct (commit_fields measure (handle (EyeButtonClick row) s)) as (Hf & _).
  rewrite Hf. simpl handle. rewrite Hrow. unfold toggleFileVisibility.
  destruct (heapInvariant_run measure evs) as [Hnd _]. fold s in Hnd.
  rewrite (toggleIn_row _ row (nextAddress s) f Hnd Hrow). simpl.
  assert (Hflag : notVisible f = negb (isVisible f)).
  { pose proof (fieldsDefined_run measure evs) as Hdef. fold s in Hdef.
    unfold fieldsDefined in Hdef. rewrite Forall_forall in Hdef.
    destruct (Hdef f) as [[b Hb] _].
    { apply list_elem_of_lookup. exists row. exact Hrow. }
    unfold notVisible, isVisible. rewrite Hb. destruct b; reflexivity. }
  rewrite Hflag. reflexivity.
Qed.

(** X3. In every reachable state a click on the eye button of a row replaces
    that row by a copy with the visibility negated and the same name, URL
    and colour, and leaves every other row as it is; a second click on the
    same button gives every file its former visibility back. *)
Theorem eye_button_flips_one_row
  (measure : list STLFile -> gmap string ModelTransformations -> Box3)
  (evs : list Event) (row : nat) (f : STLFile) :
  let s := run measure evs initialState in
  let s1 := fst (step measure (EyeButtonClick row) s) in
  let s2 := fst (step measure (EyeButtonClick row) s1) in
  loadedFiles s !! row = Some f ->
  (exists f', loadedFiles s1 !! row = Some f'
              /\ isVisible f' = negb (isVisible f)
              /\ name f' = name f /\ url f' = url f /\ color f' = color f)
  /\ (forall other, other <> row ->
                    loadedFiles s1 !! other = loadedFiles s !! other)
  /\ map isVisible (loadedFiles s2) = map isVisible (loadedFiles s)
  /\ map url (loadedFiles s2) = map url (loadedFiles s).
Proof.
  intros s s1 s2 Hrow.
  pose proof (step_EyeButtonClick measure evs row f Hrow) as H1.
  fold s in H1. fold s1 in H1.
  assert (Hlt : row < length (loadedFiles s)) by (eapply lookup_lt_Some; exact Hrow).
  assert (Hrow1 : loadedFiles s1 !! row
                  = Some (mkSTLFile (nextAddress s) (name f) (url f)
                            (Some (negb (isVisible f))) (color f))).
  { rewrite H1. apply list_lookup_insert_eq. exact Hlt. }
  split; [| split].
  - eexists. split; [exact Hrow1 |]. simpl.
    repeat split. destruct (isVisible f); reflexivity.
  - intros other Hne. rewrite H1. apply list_lookup_insert_ne. congruence.
  - pose proof (step_EyeButtonClick measure (evs ++ [EyeButtonClick row]) row
                  (mkSTLFile (nextAddress s) (name f) (url f)
                     (Some (negb (isVisible f))) (color f))) as H2.
    rewrite run_app in H2.
    change (run measure [EyeButtonClick row] (run measure evs initialState))
      with s1 in H2.
    specialize (H2 Hrow1). fold s2 in H2.
    rewrite H2, H1, list_insert_insert_eq.
    rewrite !list_fmap_insert.
    split; apply list_insert_id; rewrite list_lookup_fmap, Hrow;
      [| reflexivity].
    cbn. destruct (isVisible f); reflexivity.
Qed.

Lemma eye_button_flips_one_row_witness :
  let evs := [FileInputChange ["a.stl"; "b.stl"]; FileRowClick 0] in
  let s := run unitCube evs initialState in
  let s2 := run unitCube (evs ++ [EyeButtonClick 1; EyeButtonClick 1]) initialState in
  loadedFiles s !! 1 = Some (mkSTLFile 1 "b.stl" 1 (Some true) (Some "#9a9a9a"))
  /\ map isVisible (loadedFiles s2) = map isVisible (loadedFiles s).
Proof.
  split; [reflexivity |].
  apply (eye_button_flips_one_row unitCube
           [FileInputChange ["a.stl"; "b.stl"]; FileRowClick 0] 1
           (mkSTLFile 1 "b.stl" 1 (Some true) (Some "#9a9a9a"))).
  reflexivity.
Defined.

(* ================================================================== *)
(** ** Blob URLs *)

Lemma toggleIn_urls (file : STLFile) (files : list STLFile) (next : nat) :
  map url (fst (toggleIn file next files)) = map url files.
Proof.
  revert next. induction files as [| f rest IH]; intros next; simpl.
  - reflexivity.
  - destruct (sameObject f file).
    + specialize (IH (S next)). destruct (toggleIn file (S next) rest).
      simpl in *. rewrite IH. reflexivity.
    + specialize (IH next). destruct (toggleIn file next rest).
      simpl in *. rewrite IH. reflexivity.
Qed.

Lemma imap_urls (names : list string) (next : nat)
  (mk : nat -> string -> STLFile) :
  (forall i n, url (mk i n) = next + i) ->
  map url (imap mk names) = map (fun i => next + i) (seq 0 (length names)).
Proof.
  intros Hmk. apply list_eq. intros i.
  rewrite !list_lookup_fmap, list_lookup_imap.
  destruct (names !! i) as [n |] eqn:Hn; simpl.
  - rewrite lookup_seq_lt by (eapply lookup_lt_Some; exact Hn).
    simpl. rewrite Hmk. reflexivity.
  - rewrite lookup_seq_ge by (apply lookup_ge_None; exact Hn). reflexivity.
Qed.

Lemma handle_urls (ev : Event) (s : AppState) :
  isUpload ev = false ->
  map url (loadedFiles (handle ev s)) = map url (loadedFiles s)
  /\ nextURL (handle ev s) = nextURL s.
Proof.
  destruct ev; simpl; intros Hup; try discriminate; try (split; reflexivity).
  - destruct (loadedFiles s !! row); split; reflexivity.
  - destruct (loadedFiles s !! row) as [file |]; [| split; reflexivity].
    unfold toggleFileVisibility.
    pose proof (toggleIn_urls file (loadedFiles s) (nextAddress s)) as Hu.
    destruct (toggleIn file (nextAddress s) (loadedFiles s)). split; [exact Hu | reflexivity].
  - destruct (selectedFile s); split; reflexivity.
  - destruct (selectedFile s); [destruct (existsb _ _) |]; split; reflexivity.
  - destruct (selectedFile s); [destruct (transformMode (panel s)) |];
      split; reflexivity.
  - destruct (selectedFile s); [destruct (transformMode (panel s)) |];
      split; reflexivity.
  - destruct (selectedFile s); [destruct (transformMode (panel s)) |];
      split; reflexivity.
Qed.

Lemma urlInvariant_handle (ev : Event) (s : AppState) :
  urlInvariant s -> urlInvariant (handle ev s).
Proof.
  intros [Hnd Hlt]. unfold urlInvariant.
  assert (Hlt' : forall u, u ∈ map url (loadedFiles s) -> u < nextURL s).
  { intros u Hu. apply list_elem_of_fmap in Hu as (f & -> & Hin).
    rewrite Forall_forall in Hlt. apply Hlt, Hin. }
  destruct (isUpload ev) eqn:Hup.
  - destruct ev; try discriminate. simpl.
    assert (Hnew : map url
                     (imap (fun index fileName =>
                              mkSTLFile (nextAddress s + index) fileName
                                (nextURL s + index) (Some true)
                                (getColorByIndex
                                   (Z.of_nat (length (loadedFiles s) + index))))
                        uploadedFiles)
                   = map (fun i => nextURL s + i) (seq 0 (length uploadedFiles)))
      by (apply imap_urls; reflexivity).
    split.
    + rewrite map_app, Hnew. apply NoDup_app. split; [exact Hnd |]. split.
      * intros u Hu Hb. apply Hlt' in Hu.
        apply list_elem_of_fmap in Hb as (i & Hi & _). lia.
      * apply NoDup_fmap_2; [intros i j; lia | apply NoDup_seq].
    + apply Forall_forall. intros f Hin.
      assert (Hu : url f ∈ map url (loadedFiles s) ++
                           map (fun i => nextURL s + i) (seq 0 (length uploadedFiles))).
      { rewrite <- Hnew, <- map_app. apply list_elem_of_fmap.
        exists f. split; [reflexivity | exact Hin]. }
      apply elem_of_app in Hu as [Hold | Hfresh].
      * apply Hlt' in Hold. lia.
      * apply list_elem_of_fmap in Hfresh as (i & -> & Hi).
        apply elem_of_seq in Hi. lia.
  - destruct (handle_urls ev s Hup) as [Hu Hn]. split.
    + rewrite Hu. exact Hnd.
    + rewrite Hn. apply Forall_forall. intros f Hin. apply Hlt'.
      rewrite <- Hu. apply list_elem_of_fmap. exists f. split; [reflexivity | exact Hin].
Qed.

Lemma urlInvariant_run measure (evs : list Event) :
  urlInvariant (run measure evs initialState).
Proof.
  apply run_invariant.
  - intros ev s Hs. pose proof (urlInvariant_handle ev s Hs) as [Hnd Hlt].
    unfold step, urlInvariant, commit.
    destruct (length (loadedFiles (handle ev s)) =? effectDeps (handle ev s)).
    + split; assumption.
    + destruct (cameraEffect _ _ _). split; assumption.
  - split; constructor.
Qed.

Lemma NoDup_map_filter {A B : Type} (g : A -> B) (P : A -> Prop)
  `{forall x, Decision (P x)} (l : list A) :
  NoDup (map g l) -> NoDup (map g (filter P l)).
Proof.
  induction l as [| x l IH]; intros Hnd; [constructor |].
  simpl in Hnd. apply NoDup_cons in Hnd as [Hnotin Hnd].
  rewrite filter_cons. destruct (decide (P x)); [| exact (IH Hnd)].
  simpl. apply NoDup_cons. split; [| exact (IH Hnd)].
  intros Hin. apply Hnotin. apply list_elem_of_fmap in Hin as (y & Hy & Hyin).
  apply list_elem_of_filter in Hyin as [_ Hyin].
  apply list_elem_of_fmap. exists y. split; assumption.
Qed.

(* ================================================================== *)
(** ** Uploads and the panel *)

Lemma panelReset_commit measure (s : AppState) :
  panelReset (fst (commit measure s)).
Proof.
  unfold panelReset. destruct (commit_fields measure s) as (_ & Hs & _).
  rewrite Hs, commit_panel. intros ->. reflexivity.
Qed.

Lemma panelReset_run measure (evs : list Event) :
  panelReset (run measure evs initialState).
Proof.
  apply run_invariant.
  - intros ev s _. apply panelReset_commit.
  - intros _. reflexivity.
Qed.

(** X5. Choosing no file (an empty selection in the file input) changes
    nothing in a reachable state and does not move the camera. *)
Theorem empty_upload_is_noop
  (measure : list STLFile -> gmap string ModelTransformations -> Box3)
  (evs : list Event) :
  let s := run measure evs initialState in
  step measure (FileInputChange []) s = (s, []).
Proof.
  intros s.
  destruct (framerInvariant_run measure evs) as (Hdeps & _ & _).
  pose proof (panelReset_run measure evs) as Hpanel.
  fold s in Hdeps, Hpanel. unfold panelReset in Hpanel.
  unfold step, commit, handle, handleFileUpload. simpl.
  rewrite app_nil_r, !Nat.add_0_r, Hdeps, Nat.eqb_refl.
  destruct s as [files sel m u p sc deps na nu]. simpl in *. subst deps.
  destruct sel; [reflexivity |]. rewrite Hpanel by reflexivity. reflexivity.
Qed.

(** With nothing selected the controls of the panel are not rendered:
    none of its events changes the state. *)
Lemma handle_panel_unselected (ev : Event) (s : AppState) :
  isPanelEvent ev = true -> selectedFile s = None -> handle ev s = s.
Proof.
  intros Hev Hsel. destruct ev; try discriminate; simpl; rewrite Hsel; reflexivity.
Qed.

(* ================================================================== *)
(** ** Which object is selected *)

Lemma selectedRows_at_most_one measure (evs : list Event) :
  length (selectedRows (run measure evs initialState)) <= 1.
Proof.
  destruct (heapInvariant_run measure evs) as [Hnd _]. unfold selectedRows.
  destruct (selectedFile (run measure evs initialState)) as [x |]; simpl.
  - exact (at_most_one_address (address x) _ Hnd).
  - clear Hnd.
    induction (loadedFiles (run measure evs initialState)) as [| f l IH].
    + rewrite filter_nil. simpl. lia.
    + rewrite filter_cons_False by discriminate. exact IH.
Qed.

Lemma handle_panel_frame (ev : Event) (s : AppState) :
  isPanelEvent ev = true ->
  loadedFiles (handle ev s) = loadedFiles s
  /\ selectedFile (handle ev s) = selectedFile s.
Proof.
  destruct ev; intros Hev; try discriminate; simpl;
    destruct (selectedFile s) eqn:Hsel;
    try destruct (existsb _ _); try destruct (transformMode (panel s));
    split; simpl; first [reflexivity | assumption].
Qed.

Lemma selectionAttached_step measure (evs : list Event) (ev : Event) :
  selectionAttached (run measure evs initialState) ->
  (forall row f, ev = EyeButtonClick row ->
                 loadedFiles (run measure evs initialState) !! row = Some f ->
                 isSelected (selectedFile (run measure evs initialState)) f
                 = false) ->
  selectionAttached (fst (step measure ev (run measure evs initialState))).
Proof.
  destruct (heapInvariant_run measure evs) as [Hnd _].
  generalize dependent (run measure evs initialState). intros s Hnd Hatt Heye.
  unfold selectionAttached, step.
  destruct (commit_fields measure (handle ev s)) as (Hf & Hs & _).
  rewrite Hf, Hs. clear Hf Hs. intros f Hsel.
  destruct (isPanelEvent ev) eqn:Hpanel.
  { destruct (handle_panel_frame ev s Hpanel) as [Hl Hse].
    rewrite Hl. rewrite Hse in Hsel. apply Hatt, Hsel. }
  destruct ev; try discriminate; simpl in Hsel |- *.
  - apply elem_of_app. left. apply Hatt, Hsel.
  - destruct (loadedFiles s !! row) as [file |] eqn:Hrow; [| apply Hatt, Hsel].
    simpl in Hsel |- *.
    destruct (isSelected (selectedFile s) file); [discriminate |].
    injection Hsel as <-. apply list_elem_of_lookup. exists row. exact Hrow.
  - destruct (loadedFiles s !! row) as [file |] eqn:Hrow; [| apply Hatt, Hsel].
    specialize (Heye row file eq_refl Hrow).
    unfold toggleFileVisibility in Hsel |- *.
    rewrite (toggleIn_row _ row (nextAddress s) file Hnd Hrow) in Hsel |- *.
    simpl in Hsel |- *. specialize (Hatt f Hsel).
    apply list_elem_of_lookup in Hatt as [j Hj].
    apply list_elem_of_lookup. exists j.
    rewrite list_lookup_insert_ne; [exact Hj |].
    intros ->. rewrite Hrow in Hj. injection Hj as ->.
    rewrite Hsel in Heye. simpl in Heye. rewrite sameObject_refl in Heye.
    discriminate.
Qed.

Lemma sessionSparesSelection_app measure (evs : list Event) (ev : Event)
  (s : AppState) :
  sessionSparesSelection measure (evs ++ [ev]) s
  = sessionSparesSelection measure evs s
    && sparesSelection ev (run measure evs s).
Proof.
  revert s. induction evs as [| e evs IH]; intros s; simpl.
  - rewrite andb_true_r. reflexivity.
  - rewrite IH, andb_assoc. reflexivity.
Qed.

Lemma selectionAttached_run measure (evs : list Event) :
  sessionSparesSelection measure evs initialState = true ->
  selectionAttached (run measure evs initialState).
Proof.
  induction evs as [| ev evs IH] using rev_ind; intros Hspare.
  - intros f Hf. discriminate.
  - rewrite sessionSparesSelection_app in Hspare.
    apply andb_true_iff in Hspare as [Hrest Hev].
    rewrite run_app.
    change (run measure [ev] (run measure evs initialState))
      with (fst (step measure ev (run measure evs initialState))).
    apply selectionAttached_step; [exact (IH Hrest) |].
    intros row f -> Hrow. simpl in Hev. rewrite Hrow in Hev.
    apply negb_true_iff, Hev.
Qed.

(** X6. The selected object stays one of the objects of the list, and so
    stays drawn as selected, through every event except a click on the
    eye button of the selected row: after a session without such a click,
    if a file is selected then exactly one row is drawn as selected. *)
Theorem selection_stays_attached
  (measure : list STLFile -> gmap string ModelTransformations -> Box3)
  (evs : list Event) (f : STLFile) :
  sessionSparesSelection measure evs initialState = true ->
  selectedFile (run measure evs initialState) = Some f ->
  f ∈ loadedFiles (run measure evs initialState)
  /\ selectedRows (run measure evs initialState) = [f].
Proof.
  intros Hspare Hsel.
  pose proof (selectionAttached_run measure evs Hspare f Hsel) as Hin.
  split; [exact Hin |].
  pose proof (selectedRows_at_most_one measure evs) as Hle.
  assert (Hmem : f ∈ selectedRows (run measure evs initialState)).
  { unfold selectedRows. apply list_elem_of_filter. split; [| exact Hin].
    rewrite Hsel. simpl. apply sameObject_refl. }
  destruct (selectedRows (run measure evs initialState)) as [| x [| y l]].
  - inversion Hmem.
  - apply list_elem_of_singleton in Hmem. subst x. reflexivity.
  - simpl in Hle. lia.
Qed.

Lemma selection_stays_attached_witness :
  let evs := [FileInputChange ["a.stl"; "b.stl"]; FileRowClick 0;
              EyeButtonClick 1; FileInputChange ["c.stl"];
              ModeButtonClick rotation; RotationButtonClick RotPlus5] in
  let a := mkSTLFile 0 "a.stl" 0 (Some true) (Some "#858585") in
  sessionSparesSelection unitCube evs initialState = true
  /\ selectedFile (run unitCube evs initialState) = Some a
  /\ selectedRows (run unitCube evs initialState) = [a].
Proof.
  split; [vm_compute; reflexivity |]. split; [vm_compute; reflexivity |].
  apply (selection_stays_attached unitCube
           [FileInputChange ["a.stl"; "b.stl"]; FileRowClick 0;
            EyeButtonClick 1; FileInputChange ["c.stl"];
            ModeButtonClick rotation; RotationButtonClick RotPlus5]
           (mkSTLFile 0 "a.stl" 0 (Some true) (Some "#858585")));
    vm_compute; reflexivity.
Defined.

(* ================================================================== *)
(** ** What is drawn *)

Lemma orZero_clean (v : option number) :
  is_nan (JS.orZero v) = false
  /\ (PrimFloat.is_zero (JS.orZero v) = true -> JS.orZero v = 0%float).
Proof.
  destruct v as [x |]; simpl; [| split; reflexivity].
  unfold JS.truthy.
  destruct (PrimFloat.is_zero x) eqn:Hz; simpl; [split; reflexivity |].
  destruct (is_nan x) eqn:Hn; simpl; [split; reflexivity |].
  split; [exact Hn | rewrite Hz; discriminate].
Qed.

Lemma getAxis_default (m : gmap string ModelTransformations)
  (fileName : string) (axis : TransformationAxis) :
  getAxis (default emptyTransformations (m !! fileName)) axis
  = m !! fileName ≫= (fun t => getAxis t axis).
Proof. destruct (m !! fileName); simpl; [reflexivity | destruct axis; reflexivity]. Qed.

Lemma meshCoordinate_STLModel (stlFile : STLFile) (color : string)
  (t : ModelTransformations) (axis : TransformationAxis) :
  meshCoordinate (STLModel stlFile color t) axis = JS.orZero (getAxis t axis).
Proof. destruct axis; reflexivity. Qed.

(** X7. The mesh of a file is placed by the readings of the store, axis
    by axis: its coordinate for each of the six axes is what the store
    reads for the file's name and that axis.  Hence it is never [NaN] nor a
    negative zero, a stored number that is neither zero nor [NaN] reaches
    the coordinate of its own axis unchanged, and writing one axis leaves
    the other five coordinates as they were. *)
Theorem mesh_follows_store (s : AppState) (file : STLFile) (color : string)
  (axis : TransformationAxis) :
  let m := STLModel file color (meshTransformations s file) in
  meshCoordinate m axis = readAxis (modelTransformations s) (name file) axis
  /\ is_nan (meshCoordinate m axis) = false
  /\ (PrimFloat.is_zero (meshCoordinate m axis) = true ->
      meshCoordinate m axis = 0%float)
  /\ (forall t x, JS.truthy x = true ->
                  meshCoordinate (STLModel file color (setAxis t axis x)) axis = x)
  /\ (forall t x other,
         axis <> other ->
         meshCoordinate (STLModel file color (setAxis t axis x)) other
         = meshCoordinate (STLModel file color t) other).
Proof.
  intros m. unfold m. rewrite meshCoordinate_STLModel.
  split; [| split; [| split; [| split]]].
  - unfold readAxis, meshTransformations.
    rewrite getAxis_default. reflexivity.
  - apply orZero_clean.
  - apply orZero_clean.
  - intros t x Hx. rewrite meshCoordinate_STLModel, getAxis_setAxis.
    simpl. rewrite Hx. reflexivity.
  - intros t x other Hne. rewrite !meshCoordinate_STLModel.
    rewrite getAxis_setAxis_other by exact Hne. reflexivity.
Qed.

Lemma mesh_follows_store_witness :
  let a := mkSTLFile 0 "a.stl" 0 (Some true) (Some "#858585") in
  JS.truthy 2.5%float = true
  /\ meshCoordinate
       (STLModel a "red" (setAxis emptyTransformations rotationY 2.5))
       rotationY
     = 2.5%float.
Proof.
  split; [reflexivity |].
  apply (proj1 (proj2 (proj2 (proj2
           (mesh_follows_store initialState
              (mkSTLFile 0 "a.stl" 0 (Some true) (Some "#858585"))
              "red" rotationY))))).
  reflexivity.
Defined.

Lemma palette_lookup (k : nat) :
  k < 7 ->
  exists c, AVAILABLE_COLORS !! k = Some c
            /\ colorOrDefault (Some c) = c /\ c <> "red".
Proof.
  intros Hk.
  destruct k as [|[|[|[|[|[|[|k]]]]]]]; try lia;
    (eexists; split; [reflexivity | split; [reflexivity | discriminate]]).
Qed.

Lemma redMeshes_bound (sel : option STLFile) (F : STLFile -> Mesh)
  (files : list STLFile) :
  (forall f, f ∈ files -> meshColor (F f) = "red" -> isSelected sel f = true) ->
  length (filter (fun m => meshColor m = "red")
            (map F (filter (fun f => isVisible f = true) files)))
  <= length (filter (fun f => isSelected sel f = true) files).
Proof.
  induction files as [| f l IH]; intros Hred;
    [rewrite !filter_nil; simpl; lia |].
  assert (IH' := IH (fun g Hg => Hred g (list_elem_of_further _ _ _ Hg))).
  rewrite (filter_cons (fun f => isVisible f = true)).
  rewrite (filter_cons (fun f => isSelected sel f = true)).
  destruct (decide (isVisible f = true)) as [Hv | Hv].
  - simpl map. rewrite filter_cons.
    destruct (decide (meshColor (F f) = "red")) as [Hr | Hr].
    + rewrite decide_True by (apply Hred; [left | exact Hr]). simpl. lia.
    + destruct (decide (isSelected sel f = true)); simpl; lia.
  - destruct (decide (isSelected sel f = true)); simpl; lia.
Qed.

(** X8. In every reachable state a loaded file is given the colour "red"
    exactly when it is the selected object, a file that is not selected is
    given the palette colour of its row (the fallback colour is never
    needed), and at most one mesh is drawn in red. *)
Theorem mesh_colours
  (measure : list STLFile -> gmap string ModelTransformations -> Box3)
  (evs : list Event) :
  let s := run measure evs initialState in
  (forall i f, loadedFiles s !! i = Some f ->
               (modelColor (selectedFile s) f = "red"
                <-> isSelected (selectedFile s) f = true)
               /\ (isSelected (selectedFile s) f = false ->
                   AVAILABLE_COLORS !! (i mod 7)
                   = Some (modelColor (selectedFile s) f)))
  /\ length (redMeshes s) <= 1.
Proof.
  intros s.
  assert (Hrows : forall i f, loadedFiles s !! i = Some f ->
            (modelColor (selectedFile s) f = "red"
             <-> isSelected (selectedFile s) f = true)
            /\ (isSelected (selectedFile s) f = false ->
                AVAILABLE_COLORS !! (i mod 7)
                = Some (modelColor (selectedFile s) f))).
  { intros i f Hi.
    pose proof (paletteInvariant_run measure evs i f Hi) as Hcol.
    destruct (palette_lookup (i mod 7)) as (c & Hc & Hdef & Hne).
    { apply Nat.mod_upper_bound. discriminate. }
    unfold modelColor. rewrite Hcol, Hc, Hdef.
    destruct (isSelected (selectedFile s) f); split.
    - split; reflexivity.
    - discriminate.
    - split; [intros Hred; contradiction | discriminate].
    - reflexivity. }
  split; [exact Hrows |].
  unfold redMeshes, renderModels, visibleFiles.
  etransitivity; [| exact (selectedRows_at_most_one measure evs)].
  apply redMeshes_bound. intros f Hin Hred. simpl in Hred.
  apply list_elem_of_lookup in Hin as [i Hi].
  apply (proj1 (Hrows i f Hi)), Hred.
Qed.

Lemma mesh_colours_witness :
  let evs := [FileInputChange ["a.stl"; "b.stl"]; FileRowClick 0] in
  let b := mkSTLFile 1 "b.stl" 1 (Some true) (Some "#9a9a9a") in
  loadedFiles (run unitCube evs initialState) !! 1 = Some b
  /\ isSelected (selectedFile (run unitCube evs initialState)) b = false
  /\ AVAILABLE_COLORS !! (1 mod 7)
     = Some (modelColor (selectedFile (run unitCube evs initialState)) b).
Proof.
  split; [reflexivity |]. split; [reflexivity |].
  apply (proj2 (proj1 (mesh_colours unitCube
                         [FileInputChange ["a.stl"; "b.stl"]; FileRowClick 0])
                  1 (mkSTLFile 1 "b.stl" 1 (Some true) (Some "#9a9a9a"))
                  eq_refl)).
  reflexivity.
Defined.

(* ================================================================== *)
(** ** More on the camera effect *)

(** X9. Running the effect a second time on the same list does nothing,
    whatever the bounding boxes measured: the count it recorded blocks it. *)
Theorem cameraEffect_idempotent (box box' : Box3) (files : list STLFile)
  (sc : Scene) :
  cameraEffect box' files (fst (cameraEffect box files sc))
  = (fst (cameraEffect box files sc), []).
Proof.
  unfold cameraEffect at 2 3.
  destruct (groupRef sc && (0 <? length files)
            && negb (length files =? previousFileCountRef sc)) eqn:Hguard.
  - simpl. unfold cameraEffect. simpl.
    rewrite Nat.eqb_refl, andb_false_r. reflexivity.
  - simpl. unfold cameraEffect. rewrite Hguard. reflexivity.
Qed.

(** X10. When the group holds no geometry its bounding box is empty; a reframe
    then places the camera on the very point it looks at, the origin, and
    leaves the group at the origin. *)
Theorem reframe_on_empty_box (box : Box3) (files : list STLFile) (sc : Scene) :
  THREE.isEmpty box = true ->
  reframed (snd (cameraEffect box files sc)) = true ->
  let sc' := fst (cameraEffect box files sc) in
  cameraPosition sc' = vec3 0 0 0
  /\ cameraLookAt sc' = Some (vec3 0 0 0)
  /\ groupPosition sc' = vec3 (-0) (-0) (-0)
  /\ previousFileCountRef sc' = length files.
Proof.
  intros Hempty. unfold cameraEffect.
  destruct (groupRef sc && (0 <? length files)
            && negb (length files =? previousFileCountRef sc));
    [| discriminate].
  intros _. simpl. unfold THREE.getCenter, THREE.getSize. rewrite Hempty.
  repeat split.
Qed.

Lemma reframe_on_empty_box_witness :
  let a := mkSTLFile 0 "a.stl" 0 (Some true) (Some "#858585") in
  THREE.isEmpty emptyBox = true
  /\ reframed (snd (cameraEffect emptyBox [a] (scene initialState))) = true
  /\ cameraPosition (fst (cameraEffect emptyBox [a] (scene initialState)))
     = vec3 0 0 0.
Proof.
  split; [reflexivity |]. split; [reflexivity |].
  apply (reframe_on_empty_box emptyBox
           [mkSTLFile 0 "a.stl" 0 (Some true) (Some "#858585")]
           (scene initialState)); reflexivity.
Defined.

(* ================================================================== *)
(** ** Reading and composing updates of the store *)

Lemma updateModelTransformation_lookup (fileName : string)
  (axis : TransformationAxis) (value : number)
  (m : gmap string ModelTransformations) :
  updateModelTransformation fileName axis value m !! fileName
  = Some (setAxis (default emptyTransformations (m !! fileName)) axis
            (readAxis m fileName axis + value)%float).
Proof. unfold updateModelTransformation. apply lookup_insert_eq. Qed.

Lemma readAxis_update_other_axis (fileName : string)
  (axis other : TransformationAxis) (value : number)
  (m : gmap string ModelTransformations) :
  axis <> other ->
  readAxis (updateModelTransformation fileName axis value m) fileName other
  = readAxis m fileName other.
Proof.
  intros Hne. unfold readAxis at 1.
  rewrite updateModelTransformation_lookup. simpl.
  rewrite getAxis_setAxis_other by exact Hne.
  rewrite getAxis_default. reflexivity.
Qed.

Lemma readAxis_update_other_name (fileName other : string)
  (axis b : TransformationAxis) (value : number)
  (m : gmap string ModelTransformations) :
  fileName <> other ->
  readAxis (updateModelTransformation fileName axis value m) other b
  = readAxis m other b.
Proof.
  intros Hne. unfold readAxis.
  rewrite updateModelTransformation_other by exact Hne. reflexivity.
Qed.

(** X11. An update is read back as the old reading plus the increment (with
    [0] read for a result that is zero or [NaN]), also when the file had no
    record yet, in which case the old reading is 0; every other axis of
    that file and every axis of every other file name reads as before. *)
Theorem update_read_back (fileName : string) (axis : TransformationAxis)
  (value : number) (m : gmap string ModelTransformations) :
  readAxis (updateModelTransformation fileName axis value m) fileName axis
  = JS.orZero (Some (readAxis m fileName axis + value)%float)
  /\ (m !! fileName = None -> readAxis m fileName axis = 0%float)
  /\ (forall other, axis <> other ->
        readAxis (updateModelTransformation fileName axis value m) fileName other
        = readAxis m fileName other)
  /\ (forall otherName b, fileName <> otherName ->
        readAxis (updateModelTransformation fileName axis value m) otherName b
        = readAxis m otherName b).
Proof.
  split; [| split; [| split]].
  - unfold readAxis at 1. rewrite updateModelTransformation_same. reflexivity.
  - intros Hnone. unfold readAxis. rewrite Hnone. reflexivity.
  - intros other Hne. apply readAxis_update_other_axis, Hne.
  - intros otherName b Hne. apply readAxis_update_other_name, Hne.
Qed.

Lemma update_read_back_witness :
  (∅ : gmap string ModelTransformations) !! "a.stl" = None
  /\ readAxis ∅ "a.stl" rotationY = 0%float.
Proof.
  split; [reflexivity |].
  apply (proj1 (proj2 (update_read_back "a.stl" rotationY 1 ∅))). reflexivity.
Defined.

Lemma setAxis_commute (t : ModelTransformations) (a b : TransformationAxis)
  (x y : number) :
  a <> b -> setAxis (setAxis t a x) b y = setAxis (setAxis t b y) a x.
Proof. destruct a, b; intros Hne; try reflexivity; contradiction. Qed.

(** X12. Two updates commute unless they address the same axis of the same
    file name. *)
Theorem updates_commute (n1 n2 : string) (a1 a2 : TransformationAxis)
  (v1 v2 : number) (m : gmap string ModelTransformations) :
  n1 <> n2 \/ a1 <> a2 ->
  updateModelTransformation n1 a1 v1 (updateModelTransformation n2 a2 v2 m)
  = updateModelTransformation n2 a2 v2 (updateModelTransformation n1 a1 v1 m).
Proof.
  intros Hdiff. destruct (decide (n1 = n2)) as [<- | Hn].
  - destruct Hdiff as [Hn | Ha]; [contradiction |].
    unfold updateModelTransformation at 1 3.
    rewrite !updateModelTransformation_lookup.
    rewrite readAxis_update_other_axis by congruence.
    rewrite readAxis_update_other_axis by exact Ha.
    unfold updateModelTransformation. rewrite !insert_insert_eq. simpl.
    rewrite setAxis_commute by congruence. reflexivity.
  - unfold updateModelTransformation at 1 3.
    rewrite readAxis_update_other_name by congruence.
    rewrite readAxis_update_other_name by exact Hn.
    rewrite updateModelTransformation_other by congruence.
    rewrite updateModelTransformation_other by exact Hn.
    unfold updateModelTransformation. apply insert_insert_ne. exact Hn.
Qed.

Lemma updates_commute_witness :
  ("a.stl" <> "a.stl" \/ positionX <> rotationZ)
  /\ updateModelTransformation "a.stl" positionX 10
       (updateModelTransformation "a.stl" rotationZ 1 ∅)
     = updateModelTransformation "a.stl" rotationZ 1
         (updateModelTransformation "a.stl" positionX 10 ∅).
Proof.
  split; [right; discriminate |].
  apply (updates_commute "a.stl" "a.stl" positionX rotationZ 10 1 ∅).
  right. discriminate.
Defined.

(* ================================================================== *)
(** ** The buttons respect the mode of the panel *)

Lemma isRotationAxis_neq (a b : TransformationAxis) :
  isRotationAxis a <> isRotationAxis b -> a <> b.
Proof. intros Hne ->. apply Hne. reflexivity. Qed.

Lemma readAxis_update_kind (fileName n : string) (axis b : TransformationAxis)
  (value : number) (m : gmap string ModelTransformations) :
  isRotationAxis axis <> isRotationAxis b ->
  readAxis (updateModelTransformation fileName axis value m) n b
  = readAxis m n b.
Proof.
  intros Hkind. destruct (decide (fileName = n)) as [<- | Hn].
  - apply readAxis_update_other_axis, isRotationAxis_neq, Hkind.
  - apply readAxis_update_other_name, Hn.
Qed.

(** X13. In every reachable state the axis chosen in the panel is an axis of
    the current mode; hence a position button changes no stored rotation
    and a rotation button changes no stored position, of any file. *)
Theorem buttons_respect_mode
  (measure : list STLFile -> gmap string ModelTransformations -> Box3)
  (evs : list Event) :
  let s := run measure evs initialState in
  In (selectedAxis (panel s)) (currentAxes (panel s))
  /\ (forall p n b,
         isRotationAxis b = true ->
         readAxis (modelTransformations
                     (fst (step measure (PositionButtonClick p) s))) n b
         = readAxis (modelTransformations s) n b)
  /\ (forall r n b,
         isRotationAxis b = false ->
         readAxis (modelTransformations
                     (fst (step measure (RotationButtonClick r) s))) n b
         = readAxis (modelTransformations s) n b).
Proof.
  intros s. destruct (rotationInvariant_run measure evs) as [Hpanel _].
  fold s in Hpanel. unfold panelCoherent in Hpanel.
  split; [| split].
  - unfold currentAxes.
    destruct (transformMode (panel s)), (selectedAxis (panel s));
      simpl in *; try discriminate; tauto.
  - intros p n b Hb. unfold step.
    destruct (commit_fields measure (handle (PositionButtonClick p) s))
      as (_ & _ & Hm & _).
    rewrite Hm. simpl.
    destruct (selectedFile s) as [file |]; [| reflexivity].
    destruct (transformMode (panel s)); [| reflexivity].
    simpl. apply readAxis_update_kind. congruence.
  - intros r n b Hb. unfold step.
    destruct (commit_fields measure (handle (RotationButtonClick r) s))
      as (_ & _ & Hm & _).
    rewrite Hm. simpl.
    destruct (selectedFile s) as [file |]; [| reflexivity].
    destruct (transformMode (panel s)); [reflexivity |].
    simpl. apply readAxis_update_kind. congruence.
Qed.

Lemma buttons_respect_mode_witness :
  let evs := [FileInputChange ["a.stl"]; FileRowClick 0;
              ModeButtonClick rotation; RotationButtonClick RotPlus5;
              ModeButtonClick position; AxisButtonClick positionY] in
  let s := run unitCube evs initialState in
  isRotationAxis rotationX = true
  /\ readAxis (modelTransformations
                 (fst (step unitCube (PositionButtonClick PosPlus10) s)))
       "a.stl" rotationX
     = readAxis (modelTransformations s) "a.stl" rotationX.
Proof.
  split; [reflexivity |].
  apply (proj1 (proj2 (buttons_respect_mode unitCube
                         [FileInputChange ["a.stl"]; FileRowClick 0;
                          ModeButtonClick rotation; RotationButtonClick RotPlus5;
                          ModeButtonClick position; AxisButtonClick positionY]))).
  reflexivity.
Defined.

(* ================================================================== *)
(** ** The degrees shown for a stored rotation *)

Lemma wholeDegrees_Some (x : number) (k : Z) :
  wholeDegrees x = Some k -> (0 <= k < 360)%Z /\ x = JS.ofZ k.
Proof.
  unfold wholeDegrees.
  destruct ((0 <=? integerPart x)%Z && (integerPart x <? 360)%Z
            && Leibniz.eqb (JS.ofZ (integerPart x)) x) eqn:Hcheck;
    [| discriminate].
  intros Hk. injection Hk as <-.
  apply andb_true_iff in Hcheck as [Hrange Heq].
  apply andb_true_iff in Hrange as [Hlo Hhi].
  apply Leibniz.eqb_spec in Heq. split; [lia | symmetry; exact Heq].
Qed.

Lemma orbit_display : forAllSteps displayAdvances rotationOrbit = true.
Proof. vm_compute. reflexivity. Qed.

Lemma orbit_display_step (c : number) (r : RotationStep) :
  In c rotationOrbit ->
  exists k,
    (0 <= k < 360)%Z
    /\ radiansToDegrees (JS.orZero (Some c)) = JS.ofZ k
    /\ radiansToDegrees
         (JS.orZero (Some (rotateStored (JS.orZero (Some c)) (rotationDegrees r))))
       = JS.ofZ ((k + rotationStepZ r) mod 360).
Proof.
  intros Hc.
  pose proof (forAllSteps_spec displayAdvances rotationOrbit orbit_display c r Hc)
    as Hadv.
  unfold displayAdvances in Hadv.
  destruct (wholeDegrees (radiansToDegrees (JS.orZero (Some c))))
    as [k |] eqn:Hk; [| discriminate].
  destruct (wholeDegrees
              (radiansToDegrees
                 (JS.orZero
                    (Some (rotateStored (JS.orZero (Some c)) (rotationDegrees r))))))
    as [k' |] eqn:Hk'; [| discriminate].
  apply Z.eqb_eq in Hadv. subst k'.
  apply wholeDegrees_Some in Hk as [Hrange Hk].
  apply wholeDegrees_Some in Hk' as [_ Hk'].
  exists k. repeat split; try lia; assumption.
Qed.

(** X14. In every reachable state the degrees shown for any stored rotation
    are a whole number between 0 and 359; and a rotation button moves the
    degrees shown for the edited axis by exactly its increment, modulo
    360. *)
Theorem degrees_shown
  (measure : list STLFile -> gmap string ModelTransformations -> Box3)
  (evs : list Event) :
  let s := run measure evs initialState in
  (forall fileName axis,
      isRotationAxis axis = true ->
      exists k, (0 <= k < 360)%Z
                /\ radiansToDegrees (readAxis (modelTransformations s) fileName axis)
                   = JS.ofZ k)
  /\ (forall file r,
         selectedFile s = Some file ->
         transformMode (panel s) = rotation ->
         let axis := selectedAxis (panel s) in
         let s' := fst (step measure (RotationButtonClick r) s) in
         exists k,
           (0 <= k < 360)%Z
           /\ radiansToDegrees (readAxis (modelTransformations s) (name file) axis)
              = JS.ofZ k
           /\ radiansToDegrees (readAxis (modelTransformations s') (name file) axis)
              = JS.ofZ ((k + rotationStepZ r) mod 360)).
Proof.
  intros s. destruct (rotationInvariant_run measure evs) as [Hpanel Hm].
  fold s in Hpanel, Hm. split.
  - intros fileName axis Hrot.
    destruct (readAxis_orbit _ fileName axis Hm Hrot) as (c & Hc & ->).
    destruct (orbit_display_step c RotPlus1 Hc) as (k & Hk & Hdeg & _).
    exists k. split; assumption.
  - intros file r Hsel Hmode axis s'.
    assert (Hrot : isRotationAxis axis = true).
    { unfold panelCoherent in Hpanel. rewrite Hmode in Hpanel. exact Hpanel. }
    destruct (readAxis_orbit _ (name file) axis Hm Hrot) as (c & Hc & Hcur).
    destruct (orbit_display_step c r Hc) as (k & Hk & Hdeg & Hdeg').
    exists k. split; [exact Hk |]. split; [rewrite Hcur; exact Hdeg |].
    assert (Hnew : readAxis (modelTransformations s') (name file) axis
                   = JS.orZero
                       (Some (rotateStored (JS.orZero (Some c)) (rotationDegrees r)))).
    { unfold s', step.
      destruct (commit_fields measure (handle (RotationButtonClick r) s))
        as (_ & _ & Hmt & _).
      rewrite Hmt. simpl handle. rewrite Hsel, Hmode. simpl.
      unfold readAxis at 1. rewrite updateModelTransformation_same.
      fold axis. rewrite Hcur. reflexivity. }
    rewrite Hnew. exact Hdeg'.
Qed.

Lemma degrees_shown_witness :
  let evs := [FileInputChange ["a.stl"]; FileRowClick 0;
              ModeButtonClick rotation; RotationButtonClick RotMinus2] in
  let s := run unitCube evs initialState in
  isRotationAxis rotationX = true
  /\ exists k, (0 <= k < 360)%Z
               /\ radiansToDegrees (readAxis (modelTransformations s) "a.stl" rotationX)
                  = JS.ofZ k.
Proof.
  split; [reflexivity |].
  apply (proj1 (degrees_shown unitCube
                  [FileInputChange ["a.stl"]; FileRowClick 0;
                   ModeButtonClick rotation; RotationButtonClick RotMinus2])).
  reflexivity.
Defined.

(* ================================================================== *)
(** ** The list of loaded files *)

Lemma toggleIn_names (file : STLFile) (files : list STLFile) (next : nat) :
  map name (fst (toggleIn file next files)) = map name files.
Proof.
  revert next. induction files as [| f rest IH]; intros next; simpl.
  - reflexivity.
  - destruct (sameObject f file).
    + specialize (IH (S next)). destruct (toggleIn file (S next) rest).
      simpl in *. rewrite IH. reflexivity.
    + specialize (IH next). destruct (toggleIn file next rest).
      simpl in *. rewrite IH. reflexivity.
Qed.

Lemma handle_names (ev : Event) (s : AppState) :
  map name (loadedFiles (handle ev s))
  = map name (loadedFiles s) ++ uploadedNames [ev].
Proof.
  destruct ev; simpl; rewrite ?app_nil_r; try reflexivity.
  - rewrite map_app. f_equal. apply list_eq. intros i.
    rewrite list_lookup_fmap, list_lookup_imap.
    destruct (uploadedFiles !! i); reflexivity.
  - destruct (loadedFiles s !! row); reflexivity.
  - destruct (loadedFiles s !! row) as [file |]; [| reflexivity].
    unfold toggleFileVisibility.
    pose proof (toggleIn_names file (loadedFiles s) (nextAddress s)) as Hn.
    destruct (toggleIn file (nextAddress s) (loadedFiles s)). exact Hn.
  - destruct (selectedFile s); reflexivity.
  - destruct (selectedFile s); [destruct (existsb _ _) |]; reflexivity.
  - destruct (selectedFile s); [destruct (transformMode (panel s)) |];
      reflexivity.
  - destruct (selectedFile s); [destruct (transformMode (panel s)) |];
      reflexivity.
  - destruct (selectedFile s); [destruct (transformMode (panel s)) |];
      reflexivity.
Qed.

Lemma handle_url_list (ev : Event) (s : AppState) :
  map url (loadedFiles s) = seq 0 (length (loadedFiles s)) ->
  nextURL s = length (loadedFiles s) ->
  map url (loadedFiles (handle ev s)) = seq 0 (length (loadedFiles (handle ev s)))
  /\ nextURL (handle ev s) = length (loadedFiles (handle ev s)).
Proof.
  intros Hu Hn. destruct (isUpload ev) eqn:Hup.
  - destruct ev; try discriminate.
    change (handle (FileInputChange uploadedFiles) s)
      with (handleFileUpload uploadedFiles s).
    rewrite handleFileUpload_length. simpl. split; [| lia].
    rewrite map_app, Hu, seq_app. f_equal.
    rewrite (imap_urls uploadedFiles (nextURL s)) by reflexivity.
    rewrite Hn. simpl. apply list_eq. intros i.
    rewrite list_lookup_fmap.
    destruct (Nat.lt_ge_cases i (length uploadedFiles)) as [Hlt | Hge].
    + rewrite !lookup_seq_lt by exact Hlt. reflexivity.
    + rewrite !lookup_seq_ge by exact Hge. reflexivity.
  - destruct (handle_urls ev s Hup) as [Hu' Hn'].
    rewrite Hu', Hn', (handle_length ev s Hup). split; assumption.
Qed.

(** X15. No file is ever dropped, duplicated or reordered: after any session
    the names of the loaded files are the names chosen in the uploads, in
    upload order, and the file in row [k] carries the [k]-th blob URL. *)
Theorem loaded_files_in_upload_order
  (measure : list STLFile -> gmap string ModelTransformations -> Box3)
  (evs : list Event) :
  let s := run measure evs initialState in
  map name (loadedFiles s) = uploadedNames evs
  /\ map url (loadedFiles s) = seq 0 (length (loadedFiles s))
  /\ length (loadedFiles s) = length (uploadedNames evs).
Proof.
  assert (H : map name (loadedFiles (run measure evs initialState))
              = uploadedNames evs
              /\ map url (loadedFiles (run measure evs initialState))
                 = seq 0 (length (loadedFiles (run measure evs initialState)))
              /\ nextURL (run measure evs initialState)
                 = length (loadedFiles (run measure evs initialState))).
  { induction evs as [| ev evs IH] using rev_ind.
    - repeat split.
    - destruct IH as (Hnames & Hurls & Hnext).
      rewrite run_app.
      change (run measure [ev] (run measure evs initialState))
        with (fst (step measure ev (run measure evs initialState))).
      unfold step.
      destruct (commit_fields measure
                  (handle ev (run measure evs initialState)))
        as (Hf & _ & _ & _ & _ & _).
      assert (Hnu : nextURL (fst (commit measure
                                    (handle ev (run measure evs initialState))))
                    = nextURL (handle ev (run measure evs initialState))).
      { unfold commit.
        destruct (length _ =? effectDeps _); [reflexivity |].
        destruct (cameraEffect _ _ _). reflexivity. }
      rewrite Hf, Hnu.
      destruct (handle_url_list ev _ Hurls Hnext) as [Hu' Hn'].
      split; [| split; assumption].
      rewrite handle_names, Hnames. unfold uploadedNames.
      rewrite flat_map_app. reflexivity. }
  intros s. destruct H as (Hnames & Hurls & _).
  split; [exact Hnames |]. split; [exact Hurls |].
  rewrite <- Hnames, length_map. reflexivity.
Qed.

Lemma AVAILABLE_COLORS_distinct (i j : nat) :
  i < 7 -> j < 7 -> AVAILABLE_COLORS !! i = AVAILABLE_COLORS !! j -> i = j.
Proof.
  intros Hi Hj.
  destruct i as [|[|[|[|[|[|[|i]]]]]]]; try lia;
    destruct j as [|[|[|[|[|[|[|j]]]]]]]; try lia;
    intros Heq; first [reflexivity | discriminate Heq].
Qed.

(** X16. In every reachable state two loaded files have the same colour
    exactly when their rows differ by a multiple of 7: any seven
    consecutive files are told apart by colour, the eighth is not. *)
Theorem colours_repeat_every_seven
  (measure : list STLFile -> gmap string ModelTransformations -> Box3)
  (evs : list Event) (i j : nat) (f g : STLFile) :
  loadedFiles (run measure evs initialState) !! i = Some f ->
  loadedFiles (run measure evs initialState) !! j = Some g ->
  (color f = color g <-> i mod 7 = j mod 7).
Proof.
  intros Hi Hj.
  rewrite (paletteInvariant_run measure evs i f Hi).
  rewrite (paletteInvariant_run measure evs j g Hj).
  split.
  - apply AVAILABLE_COLORS_distinct; apply Nat.mod_upper_bound; discriminate.
  - intros ->. reflexivity.
Qed.

Lemma colours_repeat_every_seven_witness :
  let evs := [FileInputChange ["1"; "2"; "3"; "4"; "5"; "6"; "7"; "8"; "9"]] in
  let f2 := mkSTLFile 1 "2" 1 (Some true) (Some "#9a9a9a") in
  let f9 := mkSTLFile 8 "9" 8 (Some true) (Some "#9a9a9a") in
  loadedFiles (run unitCube evs initialState) !! 1 = Some f2
  /\ loadedFiles (run unitCube evs initialState) !! 8 = Some f9
  /\ (color f2 = color f9 <-> 1 mod 7 = 8 mod 7).
Proof.
  split; [reflexivity |]. split; [reflexivity |].
  apply (colours_repeat_every_seven unitCube
           [FileInputChange ["1"; "2"; "3"; "4"; "5"; "6"; "7"; "8"; "9"]]
           1 8); reflexivity.
Defined.

(** X17. Outside the indices the upload produces, the palette read has the
    period 7 on the non-negative integers, and a negative index that is not
    a multiple of 7 yields no colour at all. *)
Theorem getColorByIndex_edges (index : Z) :
  ((0 <= index)%Z -> getColorByIndex (index + 7) = getColorByIndex index)
  /\ ((index < 0)%Z -> Z.rem index 7 <> 0%Z -> getColorByIndex index = None).
Proof.
  split.
  - intros Hpos.
    rewrite <- (Z2Nat.id index Hpos).
    change 7%Z with (Z.of_nat 7). rewrite <- Nat2Z.inj_add.
    rewrite !getColorByIndex_nat.
    replace ((Z.to_nat index + 7) mod 7) with (Z.to_nat index mod 7);
      [reflexivity |].
    rewrite <- (Nat.Div0.mod_add (Z.to_nat index) 1 7). f_equal; lia.
  - intros Hneg Hrem. unfold getColorByIndex.
    change (Z.of_nat (length AVAILABLE_COLORS)) with 7%Z.
    assert (Hle : (Z.rem index 7 <= 0)%Z) by (apply Z.rem_nonpos; lia).
    destruct (Z.ltb_spec (Z.rem index 7) 0) as [_ | Hge]; [reflexivity | lia].
Qed.

Lemma getColorByIndex_edges_witness :
  (-3 < 0)%Z /\ Z.rem (-3) 7 <> 0%Z /\ getColorByIndex (-3) = None.
Proof.
  split; [lia |]. split; [discriminate |].
  apply (proj2 (getColorByIndex_edges (-3))); [lia | discriminate].
Defined.

(* ================================================================== *)
(** ** The wraparound examples, through the store *)

(** C7, as stated, fails on the doubles the program computes with: with
    350 degrees stored, the edit by +20 degrees leaves in the store a value
    that is not the radian value of 10 degrees. *)
Lemma wraparound_store_misses_ten_degrees :
  let m := updateModelTransformation "a.stl" rotationX (350 * JS.PI / 180) ∅ in
  let m' :=
    let '(fileName, axis, value) := updateRotation m "a.stl" rotationX 20 in
    updateModelTransformation fileName axis value m in
  readAxis m "a.stl" rotationX = (350 * JS.PI / 180)%float
  /\ readAxis m' "a.stl" rotationX = 0x1.657184ae7448p-3%float
  /\ (10 * JS.PI / 180)%float = 0x1.657184ae74487p-3%float
  /\ (readAxis m' "a.stl" rotationX =? 10 * JS.PI / 180)%float = false.
Proof. vm_compute. repeat split. Qed.

(** C7, amended: for any file and axis whose stored rotation is the
    radian value of 350 degrees, [updateRotation] with +20 degrees passes
    the increment "radian value of 10 degrees minus the stored value", and
    the value then stored by [updateModelTransformation] is the radian
    value of 10 degrees up to rounding (7 units in the last place below it,
    within 2^-51); with the radian value of 5 degrees stored and -20
    degrees, the increment is "radian value of 345 degrees minus the stored
    value" and the value then stored is exactly the radian value of 345
    degrees. *)
Theorem wraparound_through_store (m : gmap string ModelTransformations)
  (fileName : string) (axis : TransformationAxis) :
  (readAxis m fileName axis = (350 * JS.PI / 180)%float ->
   updateRotation m fileName axis 20
   = (fileName, axis, (10 * JS.PI / 180 - 350 * JS.PI / 180)%float)
   /\ readAxis
        (updateModelTransformation fileName axis
           (10 * JS.PI / 180 - 350 * JS.PI / 180) m) fileName axis
      = 0x1.657184ae7448p-3%float
   /\ within rotationSlack 0x1.657184ae7448p-3 (10 * JS.PI / 180) = true)
  /\ (readAxis m fileName axis = (5 * JS.PI / 180)%float ->
      updateRotation m fileName axis (-20)
      = (fileName, axis, (345 * JS.PI / 180 - 5 * JS.PI / 180)%float)
      /\ readAxis
           (updateModelTransformation fileName axis
              (345 * JS.PI / 180 - 5 * JS.PI / 180) m) fileName axis
         = (345 * JS.PI / 180)%float).
Proof.
  split; intros Hcur.
  - split; [| split].
    + unfold updateRotation. rewrite Hcur. do 2 f_equal.
    + unfold readAxis at 1. rewrite updateModelTransformation_same, Hcur.
      vm_compute. reflexivity.
    + vm_compute. reflexivity.
  - split.
    + unfold updateRotation. rewrite Hcur. do 2 f_equal.
    + unfold readAxis at 1. rewrite updateModelTransformation_same, Hcur.
      vm_compute. reflexivity.
Qed.

Lemma wraparound_through_store_witness :
  let m := updateModelTransformation "a.stl" rotationZ (5 * JS.PI / 180) ∅ in
  readAxis m "a.stl" rotationZ = (5 * JS.PI / 180)%float
  /\ updateRotation m "a.stl" rotationZ (-20)
     = ("a.stl", rotationZ, (345 * JS.PI / 180 - 5 * JS.PI / 180)%float).
Proof.
  split; [vm_compute; reflexivity |].
  apply (proj2 (wraparound_through_store
                  (updateModelTransformation "a.stl" rotationZ (5 * JS.PI / 180) ∅)
                  "a.stl" rotationZ)).
  vm_compute. reflexivity.
Defined.

(* ================================================================== *)
(** ** Clicking the row of a model whose selection went stale *)

(** C9 on the code: load one file, select it, hide it, then click its row.
    The selected object and the object of the row are the same model (same
    name, same blob URL), yet they are different objects, so the click does
    not clear the selection: it selects the object of the row.  Only the
    click after that clears it. *)
Theorem click_on_stale_selection_reselects :
  let a := mkSTLFile 0 "a.stl" 0 (Some true) (Some "#858585") in
  let a' := mkSTLFile 1 "a.stl" 0 (Some false) (Some "#858585") in
  let s := run unitCube [FileInputChange ["a.stl"]; FileRowClick 0;
                         EyeButtonClick 0] initialState in
  loadedFiles s = [a'] /\ selectedFile s = Some a
  /\ url a' = url a /\ name a' = name a
  /\ selectedFile (handleFileSelection a' s) = Some a'
  /\ selectedFile (fst (step unitCube (FileRowClick 0) s)) = Some a'
  /\ selectedFile (run unitCube [FileRowClick 0; FileRowClick 0] s) = None.
Proof. vm_compute. repeat split. Qed.

(* ================================================================== *)
(** ** Unit conversion: the rounding of a product and of a quotient

    The product and the quotient of two doubles are the exact results
    rounded to nearest, ties to even.  The lemmas below follow that
    rounding through the specification of the two operations, for operands
    and results in the normal range. *)

Section BinaryRounding.
Local Open Scope Z_scope.























End BinaryRounding.

(** What [closeTo] measures, on examples: three inches come back one unit
    in the last place low, which is within [2^-52] of the value but not
    within [2^-53]; a value two units in the last place off is not within
    [2^-52]; the opposite sign is close at no tolerance. *)
Example closeTo_examples :
  closeTo 52 0x1.7ffffffffffffp+1 3 = true
  /\ closeTo 53 0x1.7ffffffffffffp+1 3 = false
  /\ closeTo 52 0x1.8000000000002p+1 3 = false
  /\ closeTo 0 (-3) 3 = false.
Proof. repeat split; vm_compute; reflexivity. Qed.


